(** * Sales Analytics Dashboard: the computational core of [app.py]

    The dashboard's analysis functions ([analyze_profitability],
    [calculate_growth_rate], [calculate_abc_analysis], [analyze_operations]),
    the sidebar filter and the discount bucketing are embedded as Rocq
    functions over an in-memory table of transactions, and the properties the
    specification states about them are proved or refuted. *)

From Stdlib Require Import List String Ascii ZArith QArith Qabs Qround.
From Stdlib Require Import Lqa Lia Bool Permutation Sorted.
From Stdlib Require Import PrimFloat Uint63 SpecFloat FloatOps.
Import ListNotations.

Local Open Scope Q_scope.

(** ** Numbers

    A pandas numeric column holds float64 values.  They are modelled by exact
    rationals extended with the three special values that float64 division
    produces: a finite value divided by zero is an infinity, zero divided by
    zero is "not a number", and every comparison with "not a number" is false.
    Rounding error of finite arithmetic is abstracted away (finite results are
    exact), and the zero is unsigned.  What rounding does to a concrete run is
    computed separately, in [F64] below. *)
Module Num.

Inductive num : Type :=
| Fin (q : Q)
| PInf
| NInf
| NaN.

Definition is_finite (x : num) : bool :=
  match x with Fin _ => true | _ => false end.

Definition Qlt_bool (a b : Q) : bool := negb (Qle_bool b a).

(** Sign of a rational as a three-way choice. *)
Definition by_sign {A : Type} (q : Q) (neg zer pos : A) : A :=
  match q ?= 0 with Lt => neg | Eq => zer | Gt => pos end.

Definition opp (x : num) : num :=
  match x with
  | Fin q => Fin (- q)
  | PInf => NInf
  | NInf => PInf
  | NaN => NaN
  end.

Definition abs (x : num) : num :=
  match x with
  | Fin q => Fin (Qabs q)
  | PInf | NInf => PInf
  | NaN => NaN
  end.

Definition add (x y : num) : num :=
  match x, y with
  | NaN, _ | _, NaN => NaN
  | Fin a, Fin b => Fin (a + b)
  | PInf, NInf | NInf, PInf => NaN
  | PInf, _ | _, PInf => PInf
  | NInf, _ | _, NInf => NInf
  end.

Definition sub (x y : num) : num := add x (opp y).

Definition mul (x y : num) : num :=
  match x, y with
  | NaN, _ | _, NaN => NaN
  | Fin a, Fin b => Fin (a * b)
  | PInf, Fin q | Fin q, PInf => by_sign q NInf NaN PInf
  | NInf, Fin q | Fin q, NInf => by_sign q PInf NaN NInf
  | PInf, PInf | NInf, NInf => PInf
  | PInf, NInf | NInf, PInf => NaN
  end.

(** Division of float64 arrays and NumPy scalars: no exception is raised, a
    zero divisor yields an infinity or "not a number". *)
Definition div (x y : num) : num :=
  match x, y with
  | NaN, _ | _, NaN => NaN
  | Fin a, Fin b =>
      if Qeq_bool b 0 then by_sign a NInf NaN PInf else Fin (a / b)
  | Fin _, (PInf | NInf) => Fin 0
  | PInf, Fin q => by_sign q NInf PInf PInf
  | NInf, Fin q => by_sign q PInf NInf NInf
  | (PInf | NInf), (PInf | NInf) => NaN
  end.

Definition eqb (x y : num) : bool :=
  match x, y with
  | Fin a, Fin b => Qeq_bool a b
  | PInf, PInf | NInf, NInf => true
  | _, _ => false
  end.

Definition leb (x y : num) : bool :=
  match x, y with
  | NaN, _ | _, NaN => false
  | Fin a, Fin b => Qle_bool a b
  | NInf, _ | _, PInf => true
  | _, _ => false
  end.

Definition ltb (x y : num) : bool :=
  match x, y with
  | NaN, _ | _, NaN => false
  | Fin a, Fin b => Qlt_bool a b
  | PInf, _ | _, NInf => false
  | _, _ => true
  end.

(** Nearest integer, ties to the even one (NumPy's [rint]). *)
Definition rint (q : Q) : Z :=
  let f := Qfloor q in
  match Qcompare (q - inject_Z f) (1 # 2) with
  | Lt => f
  | Gt => (f + 1)%Z
  | Eq => if Z.even f then f else (f + 1)%Z
  end.

(** [Series.round(2)]: scale by 100, round to the nearest integer, scale
    back; the special values are left as they are. *)
Definition round2 (x : num) : num :=
  match x with
  | Fin q => Fin (inject_Z (rint (q * 100)) / 100)
  | _ => x
  end.

(** Closeness to a finite target; a special value is close to nothing. *)
Definition within (tol : Q) (x : num) (target : Q) : Prop :=
  match x with
  | Fin q => Qabs (q - target) <= tol
  | _ => False
  end.

End Num.

Import Num.
Coercion Fin : Q >-> num.

(** ** Metric primitives *)

(** [calculate_growth_rate(current, previous)].  The early [return 0] yields
    the integer 0, which Python's [==] identifies with the float 0.0. *)
Definition calculate_growth_rate (current previous : num) : num :=
  if Num.eqb previous (Fin 0) then Fin 0
  else Num.mul (Num.div (Num.sub current previous) (Num.abs previous))
         (Fin 100).

(** ** The ABC thresholds and the recommendation labels *)

Local Open Scope string_scope.

(** The nested [categorize_abc(pct)] of [calculate_abc_analysis]. *)
Definition categorize_abc (pct : num) : string :=
  if Num.leb pct (Fin 80) then "A"
  else if Num.leb pct (Fin 95) then "B"
  else "C".

(** [np.select(conditions, choices, default)] at one row: the choice of the
    first condition that holds, the default when none does. *)
Fixpoint np_select (conditions : list bool) (choices : list string)
  (default : string) : string :=
  match conditions, choices with
  | c :: cs, v :: vs => if c then v else np_select cs vs default
  | _, _ => default
  end.

Definition recommendation_choices : list string :=
  [ "🔥 Restock Immediately"; "✅ Maintain Stock"; "📉 Monitor / Clearance" ].

Definition recommend (class : string) : string :=
  np_select
    [ String.eqb class "A"; String.eqb class "B"; String.eqb class "C" ]
    recommendation_choices "Unknown".

(** ** Discount bucketing: [pd.cut] with explicit bin edges *)

(** [bins.searchsorted(x, side='left')] on increasing edges: the number of
    edges strictly below [x]. *)
Fixpoint searchsorted_left (bins : list Q) (x : Q) : nat :=
  match bins with
  | [] => O
  | b :: rest => if Qlt_bool b x then S (searchsorted_left rest x) else O
  end.

(** [pd.cut(x, bins, labels)] with the default [right=True] and
    [include_lowest=False]: position 0 (at or below the first edge) and
    position [len(bins)] (above the last edge) are missing values. *)
Definition pd_cut (bins : list Q) (labels : list string) (x : Q)
  : option string :=
  let ids := searchsorted_left bins x in
  if Nat.eqb ids 0 || Nat.eqb ids (List.length bins) then None
  else nth_error labels (ids - 1).

Definition discount_bins : list Q :=
  [ - (1 # 100); 10 # 100; 20 # 100; 30 # 100; 50 # 100; 1 ]%Q.

Definition discount_labels : list string :=
  [ "0-10%"; "10-20%"; "20-30%"; "30-50%"; "50%+" ].

Definition Discount_Range (discount : Q) : option string :=
  pd_cut discount_bins discount_labels discount.

(** ** The transaction table *)

(** One row of the loaded spreadsheet, after [load_data] has normalised the
    column names.  ['Order Date'] is a timestamp in seconds; the monetary
    columns and the discount are finite numbers. *)
Record Transaction : Type := {
  Order_ID : string;
  Order_Date : Z;
  Sales_Amount : Q;
  Profit_INR : Q;
  Quantity : Z;
  Discount : Q;
  Category : string;
  Product_Name : string;
  State : string;
  City : string;
  Payment_Method : string;
  Order_Status : string
}.

Definition DataFrame : Type := list Transaction.

(** *** Column reductions *)

(** [Series.sum()]: 0 on an empty column. *)
Definition pd_sum (col : list Q) : Q := fold_left Qplus col 0%Q.

Definition int_sum (col : list Z) : Z := fold_left Z.add col 0%Z.

Definition of_count (n : nat) : Q := inject_Z (Z.of_nat n).

(** [Series.mean()]: the sum over the number of values, which is 0/0, hence
    "not a number", on an empty column. *)
Definition pd_mean (col : list Q) : num :=
  Num.div (Fin (pd_sum col)) (Fin (of_count (List.length col))).

(** [Series.cumsum()]: the running sums, started from [acc]. *)
Fixpoint cumsum_from (acc : Q) (col : list Q) : list Q :=
  match col with
  | [] => []
  | x :: rest => (acc + x)%Q :: cumsum_from (acc + x)%Q rest
  end.

Definition cumsum (col : list Q) : list Q := cumsum_from 0%Q col.

(** *** Sorting and grouping *)

Section Sorting.
Context {A : Type} (le : A -> A -> bool).

Fixpoint insert (x : A) (l : list A) : list A :=
  match l with
  | [] => [x]
  | y :: rest => if le x y then x :: l else y :: insert x rest
  end.

(** A stable sort.  pandas' default sort does not fix the order of equal
    keys; here equal keys keep their order. *)
Fixpoint sort_by (l : list A) : list A :=
  match l with
  | [] => []
  | x :: rest => insert x (sort_by rest)
  end.

End Sorting.

(** Python's [sorted] on strings. *)
Definition sorted (l : list string) : list string := sort_by String.leb l.

(** [Series.unique()]: the distinct values in order of first appearance. *)
Fixpoint unique (l : list string) : list string :=
  match l with
  | [] => []
  | x :: rest => x :: filter (fun y => negb (String.eqb x y)) (unique rest)
  end.

Definition isin (x : string) (values : list string) : bool :=
  existsb (String.eqb x) values.

(** [df.groupby(key)]: the group keys in sorted order, and the rows of one
    group in table order. *)
Definition group_keys (key : Transaction -> string) (df : DataFrame)
  : list string :=
  sorted (unique (map key df)).

Definition group_rows (key : Transaction -> string) (k : string)
  (df : DataFrame) : DataFrame :=
  filter (fun r => String.eqb (key r) k) df.

(** ** Profitability *)

(** A row of [category_profit]. *)
Record category_profit_row : Type := {
  cp_Category : string;
  cp_Profit : Q;
  cp_Sales : Q;
  cp_Quantity : Z;
  Margin_pct : num
}.

Definition category_profit (df : DataFrame) : list category_profit_row :=
  map (fun c =>
         let g := group_rows Category c df in
         let profit := pd_sum (map Profit_INR g) in
         let sales := pd_sum (map Sales_Amount g) in
         {| cp_Category := c;
            cp_Profit := profit;
            cp_Sales := sales;
            cp_Quantity := int_sum (map Quantity g);
            Margin_pct :=
              Num.round2
                (Num.mul (Num.div (Fin profit) (Fin sales)) (Fin 100)) |})
      (group_keys Category df).

Definition profit_margin (df : DataFrame) : num :=
  let total_profit := pd_sum (map Profit_INR df) in
  let total_sales := pd_sum (map Sales_Amount df) in
  if Num.ltb (Fin 0) (Fin total_sales)
  then Num.mul (Num.div (Fin total_profit) (Fin total_sales)) (Fin 100)
  else Fin 0.

(** [analyze_profitability(df)] returns
    [(total_profit, avg_profit, profit_margin, category_profit)]. *)
Definition analyze_profitability (df : DataFrame)
  : Q * num * num * list category_profit_row :=
  let total_profit := pd_sum (map Profit_INR df) in
  let avg_profit := pd_mean (map Profit_INR df) in
  (total_profit, avg_profit, profit_margin df, category_profit df).

(** ** ABC classification *)

(** The grouped frame [product_metrics] before the cumulative columns. *)
Record product_metric : Type := {
  Product : string;
  Total_Sales : Q;
  Frequency : nat;
  Avg_Profit : num
}.

(** A row of the returned frame. *)
Record abc_row : Type := {
  metric : product_metric;
  Cumulative_Sales : Q;
  Total_Revenue_Sum : Q;
  Cumulative_Pct : num;
  Class : string;
  Recommendation : string
}.

Definition product_metrics (data : DataFrame) : list product_metric :=
  map (fun p =>
         let g := group_rows Product_Name p data in
         {| Product := p;
            Total_Sales := pd_sum (map Sales_Amount g);
            Frequency := List.length g;
            Avg_Profit := pd_mean (map Profit_INR g) |})
      (group_keys Product_Name data).

(** [sort_values('Total_Sales', ascending=False)]. *)
Definition sort_desc (pm : list product_metric) : list product_metric :=
  sort_by (fun a b => Qle_bool (Total_Sales b) (Total_Sales a)) pm.

Definition cumulative_pct (cumulative total : Q) : num :=
  Num.mul (Num.div (Fin cumulative) (Fin total)) (Fin 100).

Definition abc_columns (total : Q) (mc : product_metric * Q) : abc_row :=
  let pct := cumulative_pct (snd mc) total in
  let class := categorize_abc pct in
  {| metric := fst mc;
     Cumulative_Sales := snd mc;
     Total_Revenue_Sum := total;
     Cumulative_Pct := pct;
     Class := class;
     Recommendation := recommend class |}.

Definition calculate_abc_analysis (data : DataFrame) : list abc_row :=
  let pm := sort_desc (product_metrics data) in
  let cumulative := cumsum (map Total_Sales pm) in
  let total := pd_sum (map Total_Sales pm) in
  map (abc_columns total) (combine pm cumulative).

(** ** Operations *)

(** [Series.value_counts()]: each distinct value with its number of
    occurrences, the most frequent first. *)
Definition value_counts (col : list string) : list (string * nat) :=
  sort_by (fun a b => Nat.leb (snd b) (snd a))
    (map (fun v => (v, count_occ string_dec col v)) (unique col)).

(** [status_counts.get(key, default)]. *)
Definition get (counts : list (string * nat)) (key : string) (default : nat)
  : nat :=
  match find (fun e => String.eqb (fst e) key) counts with
  | Some e => snd e
  | None => default
  end.

Definition rate (count total : nat) : num :=
  if Nat.ltb 0 total
  then Num.mul (Num.div (Fin (of_count count)) (Fin (of_count total))) (Fin 100)
  else Fin 0.

(** [analyze_operations(df)] returns
    [(status_counts, fulfillment_rate, return_rate, cancellation_rate)]. *)
Definition analyze_operations (df : DataFrame)
  : list (string * nat) * num * num * num :=
  let status_counts := value_counts (map Order_Status df) in
  let total_orders := List.length df in
  let delivered := get status_counts "Delivered" 0 in
  let returned := get status_counts "Returned" 0 in
  let cancelled := get status_counts "Cancelled" 0 in
  (status_counts, rate delivered total_orders, rate returned total_orders,
   rate cancelled total_orders).

(** ** The sidebar filters *)

(** [.dt.date] / [.date()]: the calendar day of a timestamp. *)
Definition dt_date (t : Z) : Z := (t / 86400)%Z.

(** [Series.min()] and [Series.max()] of a non-empty column. *)
Definition series_min (col : list Z) : option Z :=
  match col with
  | [] => None
  | x :: rest => Some (fold_left Z.min rest x)
  end.

Definition series_max (col : list Z) : option Z :=
  match col with
  | [] => None
  | x :: rest => Some (fold_left Z.max rest x)
  end.

Definition date_filtered_df (df : DataFrame) (start_date end_date : Z)
  : DataFrame :=
  filter (fun r => (start_date <=? dt_date (Order_Date r))%Z
                   && (dt_date (Order_Date r) <=? end_date)%Z) df.

Definition all_states (df : DataFrame) : list string :=
  sorted (unique (map State df)).

Definition available_cities (df : DataFrame) (selected_states : list string)
  : list string :=
  unique (map City (filter (fun r => isin (State r) selected_states) df)).

Definition all_categories (df : DataFrame) : list string :=
  sorted (unique (map Category df)).

Definition filtered_df (df : DataFrame) (start_date end_date : Z)
  (selected_states selected_cities selected_categories : list string)
  : DataFrame :=
  filter (fun r => isin (State r) selected_states
                   && isin (City r) selected_cities
                   && isin (Category r) selected_categories)
    (date_filtered_df df start_date end_date).

(** The view obtained when the date inputs keep their defaults (the first
    and the last order date) and every offered state, city and category is
    selected.  The sidebar is only built for a non-empty table. *)
Definition full_selection (df : DataFrame) : option DataFrame :=
  match series_min (map Order_Date df), series_max (map Order_Date df) with
  | Some lo, Some hi =>
      let selected_states := all_states df in
      let selected_cities := sorted (available_cities df selected_states) in
      Some (filtered_df df (dt_date lo) (dt_date hi)
              selected_states selected_cities (all_categories df))
  | _, _ => None
  end.

(** ** Orderings of a column *)

(** Each value is at most the next one, under float comparison. *)
Fixpoint nondecreasing (col : list num) : Prop :=
  match col with
  | x :: (y :: _) as rest => Num.leb x y = true /\ nondecreasing rest
  | _ => True
  end.

(** Each value is at least the next one. *)
Fixpoint descending (col : list Q) : Prop :=
  match col with
  | x :: (y :: _) as rest => (y <= x)%Q /\ descending rest
  | _ => True
  end.

(** ** Evaluation in binary64

    The numbers above leave rounding out.  To see what the program returns on
    a concrete input, the arithmetic of the growth rate, of the cumulative
    percentage and of the operations rates is repeated here on IEEE 754
    binary64 numbers, which is what Python's [float] and NumPy's [float64]
    are.  Counts and whole amounts enter through an exact conversion. *)
Module F64.

(** A whole number as a float (exact below 2^53). *)
Definition of_Z (z : Z) : float :=
  match z with
  | Z0 => PrimFloat.of_uint63 0
  | Zpos _ => PrimFloat.of_uint63 (Uint63.of_Z z)
  | Zneg p => PrimFloat.opp (PrimFloat.of_uint63 (Uint63.of_Z (Zpos p)))
  end.

Definition of_nat (n : nat) : float := of_Z (Z.of_nat n).

(** The rational a finite float stands for. *)
Definition exact (x : float) : option Q :=
  match Prim2SF x with
  | S754_zero _ => Some 0%Q
  | S754_finite s m e =>
      let v := (inject_Z (Zpos m) * 2 ^ e)%Q in
      Some (if s then (- v)%Q else v)
  | _ => None
  end.

Definition calculate_growth_rate (current previous : float) : float :=
  if PrimFloat.eqb previous (of_Z 0) then of_Z 0
  else PrimFloat.mul
         (PrimFloat.div (PrimFloat.sub current previous)
            (PrimFloat.abs previous))
         (of_Z 100).

Definition cumulative_pct (cumulative total : float) : float :=
  PrimFloat.mul (PrimFloat.div cumulative total) (of_Z 100).

Definition categorize_abc (pct : float) : string :=
  if PrimFloat.leb pct (of_Z 80) then "A"
  else if PrimFloat.leb pct (of_Z 95) then "B"
  else "C".

Definition rate (count total : nat) : float :=
  if Nat.ltb 0 total
  then PrimFloat.mul (PrimFloat.div (of_nat count) (of_nat total)) (of_Z 100)
  else of_Z 0.

Definition analyze_operations (df : DataFrame)
  : list (string * nat) * float * float * float :=
  let status_counts := value_counts (map Order_Status df) in
  let total_orders := List.length df in
  let delivered := get status_counts "Delivered" 0 in
  let returned := get status_counts "Returned" 0 in
  let cancelled := get status_counts "Cancelled" 0 in
  (status_counts, rate delivered total_orders, rate returned total_orders,
   rate cancelled total_orders).

End F64.

(** ** Sample tables *)

Definition sale (product category status : string) (sales profit : Q)
  : Transaction :=
  {| Order_ID := "ORD";
     Order_Date := 0;
     Sales_Amount := sales;
     Profit_INR := profit;
     Quantity := 1;
     Discount := 0;
     Category := category;
     Product_Name := product;
     State := "Kerala";
     City := "Kochi";
     Payment_Method := "UPI";
     Order_Status := status |}.

(** Three products with sales 500, 300 and 200. *)
Definition three_products : DataFrame :=
  [ sale "Kettle" "Home" "Delivered" 200 20;
    sale "Laptop" "Electronics" "Delivered" 500 50;
    sale "Phone" "Electronics" "Returned" 300 30 ].

(** One order that sold for nothing. *)
Definition free_sample : DataFrame :=
  [ sale "Sticker" "Promo" "Delivered" 0 (- 5) ].

(** Nine orders: one delivered, seven returned, one cancelled. *)
Definition nine_orders : DataFrame :=
  sale "Laptop" "Electronics" "Delivered" 500 50
  :: List.repeat (sale "Phone" "Electronics" "Returned" 300 30) 7
  ++ [ sale "Kettle" "Home" "Cancelled" 200 20 ].

(** * The rest of the dashboard *)

(** ** Column names: [df.rename(columns=column_mapping)] *)

Definition column_mapping : list (string * string) :=
  [ ("Final Sales Amount (INR)", "Sales Amount");
    ("Sales", "Sales Amount");
    ("Profit", "Profit (INR)");
    ("Unit Price", "Unit Price (INR)") ].

(** The new name of one column: its entry in the mapping, or the name
    itself when it has none. *)
Definition rename_column (mapping : list (string * string)) (name : string)
  : string :=
  match find (fun e => String.eqb (fst e) name) mapping with
  | Some e => snd e
  | None => name
  end.

Definition rename (mapping : list (string * string)) (columns : list string)
  : list string :=
  map (rename_column mapping) columns.

(** ** Derived day columns *)

Definition days_order : list string :=
  [ "Monday"; "Tuesday"; "Wednesday"; "Thursday"; "Friday"; "Saturday";
    "Sunday" ].

(** [.dt.day_name()]: day 0 of the timestamps, 1 January 1970, was a
    Thursday. *)
Definition day_name (t : Z) : string :=
  nth (Z.to_nat ((dt_date t + 3) mod 7)) days_order "".

(** The ['DayOfWeek'] column of [load_data]. *)
Definition DayOfWeek (r : Transaction) : string := day_name (Order_Date r).

(** [isin(['Saturday', 'Sunday'])] on a day name. *)
Definition weekend_day (day : string) : bool :=
  isin day [ "Saturday"; "Sunday" ].

Definition Is_Weekend (r : Transaction) : bool := weekend_day (DayOfWeek r).

(** [Is_Weekend.map({True: 'Weekend', False: 'Weekday'})]. *)
Definition Day_Type (r : Transaction) : string :=
  if Is_Weekend r then "Weekend" else "Weekday".

(** ** Overview: KPI deltas and top lists *)

(** The delta shown under "Total Sales": the filtered total against the
    total of the whole table. *)
Definition total_sales_delta (df filtered : DataFrame) : num :=
  calculate_growth_rate (Fin (pd_sum (map Sales_Amount filtered)))
    (Fin (pd_sum (map Sales_Amount df))).

(** [df.groupby(key)[val].sum()]: one entry per group, keys sorted. *)
Definition groupby_sum (key : Transaction -> string) (val : Transaction -> Q)
  (df : DataFrame) : list (string * Q) :=
  map (fun k => (k, pd_sum (map val (group_rows key k df))))
    (group_keys key df).

(** [Series.nlargest(n)]: the [n] largest entries, largest first, among
    equal values the earlier ones. *)
Definition nlargest (n : nat) (s : list (string * Q)) : list (string * Q) :=
  firstn n (sort_by (fun a b => Qle_bool (snd b) (snd a)) s).

Definition top_prods (df : DataFrame) : list (string * Q) :=
  nlargest 10 (groupby_sum Product_Name Sales_Amount df).

Definition city_prof (df : DataFrame) : list (string * Q) :=
  nlargest 10 (groupby_sum City Profit_INR df).

(** ** Scenario calculator *)

Definition projected_revenue (current_revenue vol_change price_change : Q)
  : Q :=
  (current_revenue * (1 + vol_change / 100) * (1 + price_change / 100))%Q.



(** ** Discount impact *)

(** The records whose discount falls into the bucket [label]. *)
Definition discount_group (label : string) (df : DataFrame) : DataFrame :=
  filter (fun r =>
            match Discount_Range (Discount r) with
            | Some l => String.eqb l label
            | None => false
            end) df.

(** [groupby('Discount_Range', observed=True)['Profit (INR)'].mean()]: the
    buckets in label order, those without a record left out. *)
Definition disc_impact (df : DataFrame) : list (string * num) :=
  flat_map
    (fun label =>
       match discount_group label df with
       | [] => []
       | g => [ (label, pd_mean (map Profit_INR g)) ]
       end)
    discount_labels.

(** ** Demand tab: Pareto view and inventory simulation *)

(** [abc_df.head(n)]. *)
Definition head (n : nat) (table : list abc_row) : list abc_row :=
  firstn n table.

Definition pareto_view (abc_df : list abc_row) : list abc_row :=
  head 50 abc_df.



(** ** Operations tab: returns *)

Definition returns_df (df : DataFrame) : DataFrame :=
  filter (fun r => String.eqb (Order_Status r) "Returned") df.

Definition ret_cat (df : DataFrame) : list (string * nat) :=
  value_counts (map Category (returns_df df)).

(** [value_counts().nlargest(10)] on the returned products. *)
Definition top_ret_prods (df : DataFrame) : list (string * nat) :=
  firstn 10
    (sort_by (fun a b => Nat.leb (snd b) (snd a))
       (value_counts (map Product_Name (returns_df df)))).

(** ** Time-series tab: the daily series *)

(** [pd.date_range(lo, hi, freq='D')]: the timestamps a whole number of days
    after [lo], up to [hi]. *)
Definition date_range (lo hi : Z) : list Z :=
  map (fun k => (lo + 86400 * Z.of_nat k)%Z)
    (seq 0 (Z.to_nat ((hi - lo) / 86400) + 1)).

(** [groupby('Order Date')['Sales Amount'].sum().asfreq('D').fillna(0)]: the
    sales placed at each timestamp of the daily range from the first order
    to the last, 0 where there is none.  The tab is only built for a
    non-empty view. *)
Definition daily_ts (df : DataFrame) : list (Z * Q) :=
  match series_min (map Order_Date df), series_max (map Order_Date df) with
  | Some lo, Some hi =>
      map (fun t =>
             (t, pd_sum (map Sales_Amount
                           (filter (fun r => Z.eqb (Order_Date r) t) df))))
        (date_range lo hi)
  | _, _ => []
  end.

(** The guard of the decomposition chart:
    [len(daily_ts) > 30 and STATSMODELS_AVAILABLE]. *)
Definition decomposition_shown (STATSMODELS_AVAILABLE : bool)
  (df : DataFrame) : bool :=
  Nat.ltb 30 (List.length (daily_ts df)) && STATSMODELS_AVAILABLE.

(** ** More sample tables *)

(** A dated order. *)
Definition dated (t : Z) (state city : string) (sales : Q) : Transaction :=
  {| Order_ID := "ORD";
     Order_Date := t;
     Sales_Amount := sales;
     Profit_INR := 1;
     Quantity := 1;
     Discount := 0;
     Category := "Home";
     Product_Name := "Kettle";
     State := state;
     City := city;
     Payment_Method := "UPI";
     Order_Status := "Delivered" |}.

Definition two_states : DataFrame :=
  [ dated 0 "Kerala" "Kochi" 100; dated 86400 "Goa" "Panaji" 50 ].

(** * Properties *)

(** ** Facts about the numbers *)

Lemma Qlt_bool_iff (a b : Q) : Qlt_bool a b = true <-> (a < b)%Q.
Proof.
  unfold Qlt_bool. rewrite negb_true_iff.
  split; intro H.
  - apply Qnot_le_lt. intro Hle. apply Qle_bool_iff in Hle. congruence.
  - destruct (Qle_bool b a) eqn:E; [ | reflexivity ].
    apply Qle_bool_iff in E. exfalso. apply (Qlt_not_le _ _ H E).
Qed.

Lemma Qlt_bool_false_iff (a b : Q) : Qlt_bool a b = false <-> (b <= a)%Q.
Proof.
  unfold Qlt_bool. rewrite negb_false_iff. apply Qle_bool_iff.
Qed.

Lemma Qle_bool_false_iff (a b : Q) : Qle_bool a b = false <-> (b < a)%Q.
Proof.
  rewrite <- Qlt_bool_iff. unfold Qlt_bool.
  destruct (Qle_bool a b); simpl; intuition congruence.
Qed.

Lemma Qeq_bool_false_iff (a b : Q) : Qeq_bool a b = false <-> ~ (a == b)%Q.
Proof.
  split.
  - apply Qeq_bool_neq.
  - intro H. destruct (Qeq_bool a b) eqn:E; [ | reflexivity ].
    apply Qeq_bool_eq in E. contradiction.
Qed.

(** Turn boolean comparisons of rationals in the context into propositions. *)
Ltac qprop :=
  repeat match goal with
    | H : Qlt_bool _ _ = true |- _ => apply Qlt_bool_iff in H
    | H : Qlt_bool _ _ = false |- _ => apply Qlt_bool_false_iff in H
    | H : Qle_bool _ _ = true |- _ => apply Qle_bool_iff in H
    | H : Qle_bool _ _ = false |- _ => apply Qle_bool_false_iff in H
    | H : Qeq_bool _ _ = true |- _ => apply Qeq_bool_eq in H
    | H : Qeq_bool _ _ = false |- _ => apply Qeq_bool_false_iff in H
    end.

Lemma ltb_not_leb (x y : num) : Num.ltb x y = true -> Num.leb y x = false.
Proof.
  destruct x, y; simpl; try congruence.
  unfold Qlt_bool. now rewrite negb_true_iff.
Qed.

Lemma div_finite (a b : Q) :
  ~ (b == 0)%Q -> Num.div (Fin a) (Fin b) = Fin (a / b).
Proof.
  intro H. simpl. apply Qeq_bool_false_iff in H. now rewrite H.
Qed.

(** ** Growth rate *)

(** C4: [calculate_growth_rate(current, previous)] is 0 whenever
    [previous == 0] and [(current - previous) / |previous| * 100] otherwise;
    on finite arguments the latter is the rational quotient; and it maps
    (100, 50) to 100 and (50, 100) to -50, in exact arithmetic and in
    binary64 alike. *)
Theorem growth_rate_contract :
  (forall x : num, calculate_growth_rate x (Fin 0) = Fin 0) /\
  (forall current previous : num,
      calculate_growth_rate current previous =
        if Num.eqb previous (Fin 0) then Fin 0
        else Num.mul (Num.div (Num.sub current previous) (Num.abs previous))
               (Fin 100)) /\
  (forall c p : Q,
      (p == 0)%Q /\ calculate_growth_rate (Fin c) (Fin p) = Fin 0 \/
      ~ (p == 0)%Q /\
        exists q : Q, calculate_growth_rate (Fin c) (Fin p) = Fin q /\
                      (q == (c - p) / Qabs p * 100)%Q) /\
  Num.eqb (calculate_growth_rate (Fin 100) (Fin 50)) (Fin 100) = true /\
  Num.eqb (calculate_growth_rate (Fin 50) (Fin 100)) (Fin (- 50)) = true /\
  (forall x : float, F64.calculate_growth_rate x (F64.of_Z 0) = F64.of_Z 0) /\
  F64.calculate_growth_rate (F64.of_Z 100) (F64.of_Z 50) = F64.of_Z 100 /\
  F64.calculate_growth_rate (F64.of_Z 50) (F64.of_Z 100) = F64.of_Z (- 50).
Proof.
  split; [ | split; [ | split; [ | repeat split ] ] ]; try reflexivity.
  intros c p. unfold calculate_growth_rate. simpl Num.eqb.
  destruct (Qeq_bool p 0) eqn:E; qprop.
  - left. split; [ assumption | reflexivity ].
  - right. split; [ assumption | ].
    assert (Hab : ~ (Qabs p == 0)%Q).
    { intro H0. apply E.
      apply (Qabs_case p (fun a => a == 0 -> p == 0)%Q); [ | | exact H0 ];
        intros; lra. }
    exists ((c + - p) / Qabs p * 100)%Q. split.
    + unfold Num.sub, Num.opp, Num.add, Num.abs.
      rewrite (div_finite _ _ Hab). reflexivity.
    + reflexivity.
Qed.

(** ** Discount buckets *)

(** C7: the discount buckets are (-0.01, 0.10], (0.10, 0.20], (0.20, 0.30],
    (0.30, 0.50] and (0.50, 1.0], whatever the data; 0.0 and 0.10 fall into
    '0-10%' and 0.55 into '50%+'. *)
Theorem discount_range_buckets :
  (forall d : Q,
      (Discount_Range d = Some "0-10%" <-> - (1 # 100) < d /\ d <= 10 # 100) /\
      (Discount_Range d = Some "10-20%" <-> 10 # 100 < d /\ d <= 20 # 100) /\
      (Discount_Range d = Some "20-30%" <-> 20 # 100 < d /\ d <= 30 # 100) /\
      (Discount_Range d = Some "30-50%" <-> 30 # 100 < d /\ d <= 50 # 100) /\
      (Discount_Range d = Some "50%+" <-> 50 # 100 < d /\ d <= 1) /\
      (Discount_Range d = None <-> d <= - (1 # 100) \/ 1 < d))%Q /\
  Discount_Range 0 = Some "0-10%" /\
  Discount_Range (10 # 100) = Some "0-10%" /\
  Discount_Range (55 # 100) = Some "50%+".
Proof.
  split; [ | repeat split ].
  intro d. unfold Discount_Range, pd_cut, discount_bins, discount_labels.
  unfold searchsorted_left.
  destruct (Qlt_bool (- (1 # 100)) d) eqn:E0;
    [ destruct (Qlt_bool (10 # 100) d) eqn:E1;
      [ destruct (Qlt_bool (20 # 100) d) eqn:E2;
        [ destruct (Qlt_bool (30 # 100) d) eqn:E3;
          [ destruct (Qlt_bool (50 # 100) d) eqn:E4;
            [ destruct (Qlt_bool 1 d) eqn:E5 | ] | ] | ] | ] | ];
    cbn; qprop;
    repeat split; intros; try discriminate; try reflexivity; try lra.
Qed.

(** ** Recommendations *)

Lemma categorize_abc_cases (pct : num) :
  categorize_abc pct = "A" \/ categorize_abc pct = "B" \/
  categorize_abc pct = "C".
Proof.
  unfold categorize_abc.
  destruct (Num.leb pct (Fin 80)); [ now left | ].
  destruct (Num.leb pct (Fin 95)); [ now right; left | now right; right ].
Qed.

Lemma abc_rows_inv (data : DataFrame) (r : abc_row) :
  In r (calculate_abc_analysis data) ->
  Class r = categorize_abc (Cumulative_Pct r) /\
  Recommendation r = recommend (Class r) /\
  Cumulative_Pct r = cumulative_pct (Cumulative_Sales r) (Total_Revenue_Sum r).
Proof.
  unfold calculate_abc_analysis. intro H.
  apply in_map_iff in H. destruct H as [mc [<- _]].
  repeat split.
Qed.

(** C9: every row of the ABC table carries class A, B or C together with
    that class's recommendation label, and never the default "Unknown". *)
Theorem recommendation_never_unknown (data : DataFrame) :
  Forall (fun r =>
            (Class r = "A" /\ Recommendation r = "🔥 Restock Immediately" \/
             Class r = "B" /\ Recommendation r = "✅ Maintain Stock" \/
             Class r = "C" /\ Recommendation r = "📉 Monitor / Clearance") /\
            Recommendation r <> "Unknown")
    (calculate_abc_analysis data).
Proof.
  apply Forall_forall. intros r Hr.
  destruct (abc_rows_inv data r Hr) as [Hc [Hrec _]].
  rewrite Hrec.
  destruct (categorize_abc_cases (Cumulative_Pct r)) as [E | [E | E]];
    rewrite <- Hc in E; rewrite E; split;
    solve [ discriminate | auto ].
Qed.

(** ** Profitability *)

Lemma by_sign_nonzero (q : Q) (neg pos : num) :
  ~ (q == 0)%Q -> by_sign q neg NaN pos = neg \/ by_sign q neg NaN pos = pos.
Proof.
  intro H. unfold by_sign.
  destruct (q ?= 0)%Q eqn:E; auto.
  apply Qeq_alt in E. contradiction.
Qed.

Lemma category_profit_inv (df : DataFrame) (row : category_profit_row) :
  In row (category_profit df) ->
  Margin_pct row =
    Num.round2 (Num.mul (Num.div (Fin (cp_Profit row)) (Fin (cp_Sales row)))
                  (Fin 100)).
Proof.
  unfold category_profit. intro H.
  apply in_map_iff in H. destruct H as [c [<- _]]. reflexivity.
Qed.

(** C10: the zero-sales guard covers the overall margin only.  In every
    category breakdown a category whose sales sum to 0 and whose profit does
    not has an infinite Margin%; [free_sample] is such an input, and its
    overall margin is still the guarded 0. *)
Theorem category_margin_unguarded :
  (forall df : DataFrame,
      Forall (fun row =>
                (cp_Sales row == 0)%Q -> ~ (cp_Profit row == 0)%Q ->
                Num.is_finite (Margin_pct row) = false)
        (snd (analyze_profitability df))) /\
  (exists row : category_profit_row,
      In row (snd (analyze_profitability free_sample)) /\
      (cp_Sales row == 0)%Q /\ ~ (cp_Profit row == 0)%Q /\
      Margin_pct row = NInf) /\
  snd (fst (analyze_profitability free_sample)) = Fin 0.
Proof.
  split; [ | split ].
  - intro df. apply Forall_forall. intros row Hin Hs Hp.
    simpl in Hin. rewrite (category_profit_inv df row Hin).
    simpl Num.div. apply Qeq_bool_iff in Hs. rewrite Hs.
    destruct (by_sign_nonzero (cp_Profit row) NInf PInf Hp) as [E | E];
      rewrite E; reflexivity.
  - eexists. split; [ left; reflexivity | ].
    cbn. repeat split; try reflexivity. intro H. discriminate H.
  - reflexivity.
Qed.

(** C5: the profit margin is total profit / total sales * 100 when the total
    sales amount is positive and 0 when it is 0, whatever the profit. *)
Theorem profit_margin_guard (df : DataFrame) :
  let total_profit := pd_sum (map Profit_INR df) in
  let total_sales := pd_sum (map Sales_Amount df) in
  let margin := snd (fst (analyze_profitability df)) in
  ((0 < total_sales)%Q ->
   exists q : Q, margin = Fin q /\ (q == total_profit / total_sales * 100)%Q) /\
  ((total_sales == 0)%Q -> margin = Fin 0) /\
  ((0 < total_sales)%Q \/ margin = Fin 0).
Proof.
  cbn zeta. unfold analyze_profitability, profit_margin. cbn [fst snd].
  unfold Num.ltb.
  destruct (Qlt_bool 0 (pd_sum (map Sales_Amount df))) eqn:E; qprop.
  - split; [ | split ].
    + intros _. eexists. split; [ | reflexivity ].
      rewrite div_finite by lra. reflexivity.
    + intro H. lra.
    + now left.
  - split; [ | split ].
    + intro H. lra.
    + reflexivity.
    + now right.
Qed.

(** ** The empty table *)

(** C3 as stated fails: on the empty table the average profit is not 0. *)
Lemma empty_average_profit_not_zero :
  ~ (let '(total_profit, avg_profit, margin, _) := analyze_profitability [] in
     (total_profit == 0)%Q /\ Num.eqb avg_profit (Fin 0) = true /\
     Num.eqb margin (Fin 0) = true).
Proof.
  cbn. intros [_ [H _]]. discriminate H.
Qed.

(** C3, amended: on the empty table nothing fails; the ABC table is empty,
    the total profit and the profit margin are 0, the category breakdown is
    empty and the three operations rates are 0, while the average profit is
    "not a number". *)
Theorem empty_table_results :
  calculate_abc_analysis [] = [] /\
  analyze_profitability [] = (0%Q, NaN, Fin 0, []) /\
  analyze_operations [] = ([], Fin 0, Fin 0, Fin 0).
Proof.
  repeat split.
Qed.

(** ** Facts about sorting, distinct values and membership *)

Section SortingFacts.
Context {A : Type} (le : A -> A -> bool).

Lemma insert_perm (x : A) (l : list A) : Permutation (insert le x l) (x :: l).
Proof.
  induction l as [ | y l IH ]; simpl.
  - reflexivity.
  - destruct (le x y).
    + reflexivity.
    + rewrite IH. apply perm_swap.
Qed.

Lemma sort_by_perm (l : list A) : Permutation (sort_by le l) l.
Proof.
  induction l as [ | x l IH ]; simpl.
  - reflexivity.
  - rewrite insert_perm. now apply perm_skip.
Qed.

Lemma sort_by_In (x : A) (l : list A) : In x (sort_by le l) <-> In x l.
Proof.
  split; apply Permutation_in;
    [ apply sort_by_perm | apply Permutation_sym, sort_by_perm ].
Qed.

End SortingFacts.

Lemma filter_all {A : Type} (f : A -> bool) (l : list A) :
  (forall x, In x l -> f x = true) -> filter f l = l.
Proof.
  induction l as [ | y l IH ]; simpl; intro H.
  - reflexivity.
  - rewrite (H y) by now left. f_equal. apply IH.
    intros x Hx. apply H. now right.
Qed.

Lemma unique_In (x : string) (l : list string) : In x (unique l) <-> In x l.
Proof.
  induction l as [ | y l IH ]; simpl.
  - tauto.
  - rewrite filter_In, IH, negb_true_iff, String.eqb_neq.
    destruct (string_dec y x); intuition congruence.
Qed.

Lemma NoDup_filter {A : Type} (f : A -> bool) (l : list A) :
  NoDup l -> NoDup (filter f l).
Proof.
  induction 1 as [ | x l Hx Hl IH ]; simpl.
  - constructor.
  - destruct (f x); [ constructor | ]; auto.
    rewrite filter_In. tauto.
Qed.

Lemma unique_NoDup (l : list string) : NoDup (unique l).
Proof.
  induction l as [ | y l IH ]; simpl.
  - constructor.
  - constructor.
    + rewrite filter_In, String.eqb_refl. simpl. intros [_ H]. discriminate H.
    + now apply NoDup_filter.
Qed.

Lemma isin_In (x : string) (values : list string) :
  isin x values = true <-> In x values.
Proof.
  unfold isin. rewrite existsb_exists. split.
  - intros [y [Hy E]]. apply String.eqb_eq in E. now subst.
  - intro H. exists x. split; [ assumption | apply String.eqb_refl ].
Qed.

Lemma isin_sorted_unique {A : Type} (f : A -> string) (r : A) (l : list A) :
  In r l -> isin (f r) (sorted (unique (map f l))) = true.
Proof.
  intro H. apply isin_In. unfold sorted. apply sort_by_In, unique_In.
  now apply in_map.
Qed.

(** ** The filter round trip *)

Lemma fold_min_le (l : list Z) (x y : Z) :
  In y (x :: l) -> (fold_left Z.min l x <= y)%Z.
Proof.
  assert (Hacc : forall l x, (fold_left Z.min l x <= x)%Z).
  { clear. induction l as [ | z l IH ]; simpl; intro x; [ lia | ].
    specialize (IH (Z.min x z)). lia. }
  revert x. induction l as [ | z l IH ]; simpl; intros x H.
  - destruct H as [-> | []]. lia.
  - destruct H as [-> | [-> | H]].
    + specialize (Hacc l (Z.min y z)). lia.
    + specialize (Hacc l (Z.min x y)). lia.
    + apply IH. now right.
Qed.

Lemma fold_max_ge (l : list Z) (x y : Z) :
  In y (x :: l) -> (y <= fold_left Z.max l x)%Z.
Proof.
  assert (Hacc : forall l x, (x <= fold_left Z.max l x)%Z).
  { clear. induction l as [ | z l IH ]; simpl; intro x; [ lia | ].
    specialize (IH (Z.max x z)). lia. }
  revert x. induction l as [ | z l IH ]; simpl; intros x H.
  - destruct H as [-> | []]. lia.
  - destruct H as [-> | [-> | H]].
    + specialize (Hacc l (Z.max y z)). lia.
    + specialize (Hacc l (Z.max x y)). lia.
    + apply IH. now right.
Qed.

Lemma dt_date_mono (s t : Z) : (s <= t)%Z -> (dt_date s <= dt_date t)%Z.
Proof.
  intro H. unfold dt_date. apply Z.div_le_mono; lia.
Qed.

(** A selection that covers every row of the table filters nothing out. *)
Lemma filtered_df_covering (df : DataFrame) (start_date end_date : Z)
  (states cities categories : list string) :
  (forall r, In r df ->
     (start_date <= dt_date (Order_Date r) <= end_date)%Z /\
     In (State r) states /\ In (City r) cities /\ In (Category r) categories) ->
  filtered_df df start_date end_date states cities categories = df.
Proof.
  intro H. unfold filtered_df, date_filtered_df.
  rewrite (filter_all _ df).
  - apply filter_all. intros r Hr.
    destruct (H r Hr) as [_ [Hs [Hc Hk]]].
    apply isin_In in Hs, Hc, Hk. now rewrite Hs, Hc, Hk.
  - intros r Hr. destruct (H r Hr) as [[Hlo Hhi] _].
    apply andb_true_iff. split; apply Z.leb_le; assumption.
Qed.

(** C8: with the date range from the first to the last order date and every
    state, city and category selected, the filtered view of a (non-empty)
    table is the table itself, row for row. *)
Theorem full_selection_identity (r : Transaction) (df : DataFrame) :
  full_selection (r :: df) = Some (r :: df).
Proof.
  unfold full_selection.
  change (map Order_Date (r :: df)) with (Order_Date r :: map Order_Date df).
  cbn [series_min series_max]. f_equal.
  apply filtered_df_covering. intros x Hx.
  assert (Hd : In (Order_Date x) (Order_Date r :: map Order_Date df)).
  { change (In (Order_Date x) (map Order_Date (r :: df))). now apply in_map. }
  repeat split.
  - apply dt_date_mono, fold_min_le, Hd.
  - apply dt_date_mono, fold_max_ge, Hd.
  - apply isin_In. unfold all_states. now apply isin_sorted_unique.
  - unfold sorted. apply sort_by_In. unfold available_cities.
    apply unique_In. apply in_map. apply filter_In. split; [ assumption | ].
    unfold all_states. now apply isin_sorted_unique.
  - apply isin_In. unfold all_categories. now apply isin_sorted_unique.
Qed.

(** ** Operations rates *)

Lemma get_In (counts : list (string * nat)) (k : string) (v d : nat) :
  NoDup (map fst counts) -> In (k, v) counts -> get counts k d = v.
Proof.
  unfold get.
  induction counts as [ | [k' v'] counts IH ]; simpl; intros Hnd Hin.
  - contradiction.
  - inversion Hnd as [ | ? ? Hk' Hnd' ]; subst.
    destruct Hin as [E | Hin].
    + inversion E; subst. now rewrite String.eqb_refl.
    + destruct (String.eqb k' k) eqn:E.
      * apply String.eqb_eq in E. subst k'. exfalso. apply Hk'.
        change k with (fst (k, v)). now apply in_map.
      * now apply IH.
Qed.

Lemma get_not_In (counts : list (string * nat)) (k : string) (d : nat) :
  ~ In k (map fst counts) -> get counts k d = d.
Proof.
  unfold get. induction counts as [ | [k' v'] counts IH ]; simpl; intro H.
  - reflexivity.
  - destruct (String.eqb k' k) eqn:E.
    + apply String.eqb_eq in E. tauto.
    + apply IH. tauto.
Qed.

Lemma value_counts_keys (col : list string) :
  Permutation (map fst (value_counts col)) (unique col).
Proof.
  unfold value_counts. rewrite sort_by_perm, map_map. simpl.
  now rewrite map_id.
Qed.

(** Looking a value up in [value_counts] gives its number of occurrences,
    which is the default 0 for a value that does not occur. *)
Lemma value_counts_get (col : list string) (k : string) :
  get (value_counts col) k 0 = count_occ string_dec col k.
Proof.
  destruct (in_dec string_dec k col) as [Hin | Hnin].
  - apply get_In.
    + eapply Permutation_NoDup.
      * apply Permutation_sym, value_counts_keys.
      * apply unique_NoDup.
    + unfold value_counts. apply sort_by_In.
      apply in_map_iff. exists k. split; [ reflexivity | ].
      now apply unique_In.
  - rewrite get_not_In.
    + symmetry. now apply count_occ_not_In.
    + intro H. apply Hnin. apply unique_In.
      eapply Permutation_in; [ apply value_counts_keys | exact H ].
Qed.

Lemma count_occ_three (l : list string) (a b c : string) :
  a <> b -> a <> c -> b <> c ->
  (count_occ string_dec l a + count_occ string_dec l b
   + count_occ string_dec l c <= List.length l)%nat.
Proof.
  intros Hab Hac Hbc. induction l as [ | x l IH ]; simpl.
  - lia.
  - destruct (string_dec x a), (string_dec x b), (string_dec x c);
      subst; try congruence; lia.
Qed.

Lemma of_count_pos (n : nat) : (0 < n)%nat -> (0 < of_count n)%Q.
Proof.
  intro H. unfold of_count. change 0%Q with (inject_Z 0).
  rewrite <- Zlt_Qlt. lia.
Qed.

Lemma of_count_sum_le (a b c t : nat) :
  (a + b + c <= t)%nat ->
  (of_count a + of_count b + of_count c <= of_count t)%Q.
Proof.
  intro H. unfold of_count. rewrite <- !inject_Z_plus, <- Zle_Qle. lia.
Qed.

Lemma rate_positive (n t : nat) :
  (0 < t)%nat ->
  rate n t = Fin (of_count n / of_count t * 100)%Q.
Proof.
  intro H. unfold rate.
  destruct (Nat.ltb_spec 0 t) as [_ | Hle]; [ | lia ].
  rewrite div_finite; [ reflexivity | ].
  pose proof (of_count_pos t H). lra.
Qed.

(** C6, amended: the three rates are count / total * 100 for 'Delivered',
    'Returned' and 'Cancelled', where a status that does not occur counts 0
    and has rate 0; they are all 0 on the empty table; and in exact
    arithmetic they add up to at most 100. *)
Theorem operations_rates (df : DataFrame) :
  let statuses := map Order_Status df in
  let count := count_occ string_dec statuses in
  let total := List.length df in
  let status_counts := fst (fst (fst (analyze_operations df))) in
  let fulfillment_rate := snd (fst (fst (analyze_operations df))) in
  let return_rate := snd (fst (analyze_operations df)) in
  let cancellation_rate := snd (analyze_operations df) in
  (forall s : string, get status_counts s 0 = count s) /\
  (forall s : string, ~ In s statuses -> get status_counts s 0 = O) /\
  (total = O /\ fulfillment_rate = Fin 0 /\ return_rate = Fin 0 /\
     cancellation_rate = Fin 0 \/
   (0 < total)%nat /\
     fulfillment_rate =
       Fin (of_count (count "Delivered") / of_count total * 100)%Q /\
     return_rate =
       Fin (of_count (count "Returned") / of_count total * 100)%Q /\
     cancellation_rate =
       Fin (of_count (count "Cancelled") / of_count total * 100)%Q) /\
  (~ In "Delivered" statuses -> Num.eqb fulfillment_rate (Fin 0) = true) /\
  (~ In "Returned" statuses -> Num.eqb return_rate (Fin 0) = true) /\
  (~ In "Cancelled" statuses -> Num.eqb cancellation_rate (Fin 0) = true) /\
  Num.leb (Num.add (Num.add fulfillment_rate return_rate) cancellation_rate)
    (Fin 100) = true.
Proof.
  cbn zeta. unfold analyze_operations. cbn [fst snd].
  rewrite !value_counts_get.
  set (statuses := map Order_Status df).
  set (d := count_occ string_dec statuses "Delivered").
  set (r := count_occ string_dec statuses "Returned").
  set (c := count_occ string_dec statuses "Cancelled").
  assert (Hsum : (d + r + c <= List.length df)%nat).
  { unfold d, r, c. rewrite <- (length_map Order_Status df).
    apply count_occ_three; discriminate. }
  assert (Habsent : forall s n,
             ~ In s statuses ->
             Num.eqb (rate (count_occ string_dec statuses s) n) (Fin 0) = true).
  { intros s n Hs. rewrite (proj1 (count_occ_not_In string_dec statuses s) Hs).
    destruct n as [ | n ]; [ reflexivity | ].
    rewrite rate_positive by lia. simpl. apply Qeq_eq_bool.
    pose proof (of_count_pos (S n) ltac:(lia)).
    change (of_count 0) with 0%Q. field. lra. }
  split; [ intro s; apply value_counts_get | ].
  split; [ intros s Hs; rewrite value_counts_get;
           now apply count_occ_not_In | ].
  split; [ | split; [ apply Habsent | split; [ apply Habsent |
                 split; [ apply Habsent | ] ] ] ].
  - destruct (List.length df) as [ | n ] eqn:El.
    + left. repeat split.
    + right. split; [ lia | ].
      rewrite !rate_positive by lia. repeat split.
  - destruct (List.length df) as [ | n ] eqn:El.
    + reflexivity.
    + rewrite !rate_positive by lia. simpl.
      apply Qle_bool_iff.
      pose proof (of_count_pos (S n) ltac:(lia)) as Hpos.
      pose proof (of_count_sum_le d r c (S n) Hsum) as Hle.
      set (t := of_count (S n)) in *.
      assert (E : (of_count d / t * 100 + of_count r / t * 100
                   + of_count c / t * 100
                   == (of_count d + of_count r + of_count c) * 100 / t)%Q).
      { field. lra. }
      rewrite E. apply Qle_shift_div_r; [ assumption | lra ].
Qed.

(** ** Rounding *)

(** C6 as stated fails: for [nine_orders] the three rates the program
    returns are 11.11111111111111, 77.77777777777779 and 11.11111111111111;
    their float sum is above 100, and so is their exact sum. *)
Lemma nine_orders_rates_exceed_100 :
  let result := F64.analyze_operations nine_orders in
  let fulfillment_rate := snd (fst (fst result)) in
  let return_rate := snd (fst result) in
  let cancellation_rate := snd result in
  PrimFloat.leb
    (PrimFloat.add (PrimFloat.add fulfillment_rate return_rate)
       cancellation_rate)
    (F64.of_Z 100) = false /\
  exists f r c : Q,
    F64.exact fulfillment_rate = Some f /\ F64.exact return_rate = Some r /\
    F64.exact cancellation_rate = Some c /\ (100 < f + r + c)%Q.
Proof.
  cbn zeta. split.
  - vm_compute. reflexivity.
  - do 3 eexists. repeat split; try (vm_compute; reflexivity).
Qed.

(** ** ABC thresholds *)

Lemma categorize_abc_A (pct : num) :
  categorize_abc pct = "A" <-> Num.leb pct (Fin 80) = true.
Proof.
  unfold categorize_abc.
  destruct (Num.leb pct (Fin 80)); [ tauto | ].
  destruct (Num.leb pct (Fin 95)); split; discriminate.
Qed.

Lemma categorize_abc_B (pct : num) :
  categorize_abc pct = "B" <->
  Num.leb pct (Fin 80) = false /\ Num.leb pct (Fin 95) = true.
Proof.
  unfold categorize_abc.
  destruct (Num.leb pct (Fin 80));
    [ split; [ discriminate | intros [H _]; discriminate H ] | ].
  destruct (Num.leb pct (Fin 95)); [ tauto | ].
  split; [ discriminate | intros [_ H]; discriminate H ].
Qed.

Lemma categorize_abc_C (pct : num) :
  categorize_abc pct = "C" <->
  Num.leb pct (Fin 80) = false /\ Num.leb pct (Fin 95) = false.
Proof.
  unfold categorize_abc.
  destruct (Num.leb pct (Fin 80));
    [ split; [ discriminate | intros [H _]; discriminate H ] | ].
  destruct (Num.leb pct (Fin 95)); [ | tauto ].
  split; [ discriminate | intros [_ H]; discriminate H ].
Qed.

Lemma above_95_above_80 (pct : num) :
  Num.ltb (Fin 95) pct = true -> Num.ltb (Fin 80) pct = true.
Proof.
  destruct pct; simpl; try congruence.
  intro H. qprop. apply Qlt_bool_iff. lra.
Qed.

(** C1 as stated fails: the third of the three products, at 100%, is not in
    class B. *)
Lemma three_products_classes_not_AAB :
  map Class (calculate_abc_analysis three_products) <> [ "A"; "A"; "B" ].
Proof.
  vm_compute. intro H. discriminate H.
Qed.

(** C1, amended: a product is in class A when its cumulative percentage is
    at most 80, in class B when it is above 80 and at most 95, in class C
    when it is above 95; every product is in exactly one of the three
    classes; and the three products with sales 500, 300 and 200 have
    cumulative percentages 50, 80 and 100 (also when computed in binary64)
    and classes A, A and C. *)
Theorem abc_class_thresholds :
  (forall data : DataFrame,
      Forall (fun r =>
                let pct := Cumulative_Pct r in
                (Num.leb pct (Fin 80) = true -> Class r = "A") /\
                (Num.ltb (Fin 80) pct = true -> Num.leb pct (Fin 95) = true ->
                 Class r = "B") /\
                (Num.ltb (Fin 95) pct = true -> Class r = "C") /\
                (Class r = "A" <-> Num.leb pct (Fin 80) = true) /\
                (Class r = "B" <->
                 Num.leb pct (Fin 80) = false /\ Num.leb pct (Fin 95) = true) /\
                (Class r = "C" <->
                 Num.leb pct (Fin 80) = false /\
                 Num.leb pct (Fin 95) = false) /\
                (Class r = "A" \/ Class r = "B" \/ Class r = "C"))
        (calculate_abc_analysis data)) /\
  map (fun r => Product (metric r)) (calculate_abc_analysis three_products)
  = [ "Laptop"; "Phone"; "Kettle" ] /\
  map Total_Sales (map metric (calculate_abc_analysis three_products))
  = [ 500; 300; 200 ]%Q /\
  Forall2 (fun pct q => Num.eqb pct (Fin q) = true)
    (map Cumulative_Pct (calculate_abc_analysis three_products))
    [ 50; 80; 100 ]%Q /\
  map Class (calculate_abc_analysis three_products) = [ "A"; "A"; "C" ] /\
  map (fun c => F64.cumulative_pct (F64.of_Z c) (F64.of_Z 1000))
    [ 500; 800; 1000 ]%Z
  = map F64.of_Z [ 50; 80; 100 ]%Z /\
  map F64.categorize_abc (map F64.of_Z [ 50; 80; 100 ]%Z) = [ "A"; "A"; "C" ].
Proof.
  split; [ | repeat split; repeat constructor ].
  intro data. apply Forall_forall. intros r Hr. cbn zeta.
  destruct (abc_rows_inv data r Hr) as [Hc _]. rewrite Hc.
  split; [ apply categorize_abc_A | ].
  split.
  { intros H80 H95. apply categorize_abc_B. split; [ | assumption ].
    now apply ltb_not_leb. }
  split.
  { intro H95. apply categorize_abc_C. split.
    - now apply ltb_not_leb, above_95_above_80.
    - now apply ltb_not_leb. }
  split; [ apply categorize_abc_A | ].
  split; [ apply categorize_abc_B | ].
  split; [ apply categorize_abc_C | apply categorize_abc_cases ].
Qed.

(** ** Sums *)

Lemma fold_left_Qplus (l : list Q) (a : Q) :
  (fold_left Qplus l a == a + pd_sum l)%Q.
Proof.
  unfold pd_sum. revert a. induction l as [ | x l IH ]; simpl; intro a.
  - ring.
  - rewrite (IH (a + x)%Q), (IH (0 + x)%Q). ring.
Qed.

Lemma pd_sum_cons (x : Q) (l : list Q) : (pd_sum (x :: l) == x + pd_sum l)%Q.
Proof.
  unfold pd_sum at 1. simpl. rewrite fold_left_Qplus. ring.
Qed.

Lemma pd_sum_perm (l l' : list Q) :
  Permutation l l' -> (pd_sum l == pd_sum l')%Q.
Proof.
  induction 1 as [ | x l l' _ IH | x y l | l l' l'' _ IH1 _ IH2 ].
  - reflexivity.
  - rewrite !pd_sum_cons, IH. reflexivity.
  - rewrite !pd_sum_cons. ring.
  - now rewrite IH1.
Qed.

Lemma pd_sum_nonneg (l : list Q) :
  Forall (fun x => 0 <= x)%Q l -> (0 <= pd_sum l)%Q.
Proof.
  induction 1 as [ | x l Hx _ IH ].
  - apply Qle_refl.
  - rewrite pd_sum_cons. lra.
Qed.

Section SumsOverKeys.
Context {K : Type}.

Lemma sum_map_add (f g : K -> Q) (ks : list K) :
  (pd_sum (map (fun k => f k + g k) ks)
   == pd_sum (map f ks) + pd_sum (map g ks))%Q.
Proof.
  induction ks as [ | k ks IH ]; simpl map.
  - reflexivity.
  - rewrite !pd_sum_cons, IH. ring.
Qed.

Lemma sum_map_ext (f g : K -> Q) (ks : list K) :
  (forall k, In k ks -> f k == g k)%Q ->
  (pd_sum (map f ks) == pd_sum (map g ks))%Q.
Proof.
  induction ks as [ | k ks IH ]; simpl map; intro H.
  - reflexivity.
  - rewrite !pd_sum_cons, IH, (H k).
    + reflexivity.
    + now left.
    + intros k' Hk'. apply H. now right.
Qed.

Lemma sum_map_zero (ks : list K) : (pd_sum (map (fun _ => 0) ks) == 0)%Q.
Proof.
  induction ks as [ | k ks IH ]; simpl map.
  - reflexivity.
  - rewrite pd_sum_cons, IH. ring.
Qed.

End SumsOverKeys.

(** Among distinct keys, exactly one equals a key of the list. *)
Lemma sum_indicator (ks : list string) (k : string) (v : Q) :
  NoDup ks ->
  (pd_sum (map (fun k' => if String.eqb k k' then v else 0) ks)
   == if in_dec string_dec k ks then v else 0)%Q.
Proof.
  induction 1 as [ | k0 ks Hk0 _ IH ]; simpl map.
  - reflexivity.
  - rewrite pd_sum_cons, IH.
    destruct (String.eqb_spec k k0) as [-> | Hne].
    + destruct (in_dec string_dec k0 ks) as [Hin | _]; [ contradiction | ].
      destruct (in_dec string_dec k0 (k0 :: ks)) as [_ | Hn];
        [ ring | exfalso; apply Hn; now left ].
    + destruct (in_dec string_dec k ks) as [Hin | Hnin];
        destruct (in_dec string_dec k (k0 :: ks)) as [Hin' | Hnin'];
        try ring.
      * exfalso. apply Hnin'. now right.
      * exfalso. destruct Hin' as [E | Hin']; [ congruence | contradiction ].
Qed.

(** The group sums of a column add up to the sum of the column. *)
Lemma group_sums (key : Transaction -> string) (val : Transaction -> Q)
  (ks : list string) (df : DataFrame) :
  NoDup ks -> (forall r, In r df -> In (key r) ks) ->
  (pd_sum (map (fun k => pd_sum (map val (group_rows key k df))) ks)
   == pd_sum (map val df))%Q.
Proof.
  intros Hnd. induction df as [ | r df IH ]; intro Hks.
  - apply sum_map_zero.
  - assert (E : forall k,
               (pd_sum (map val (group_rows key k (r :: df)))
                == (if String.eqb (key r) k then val r else 0)
                   + pd_sum (map val (group_rows key k df)))%Q).
    { intro k. unfold group_rows. cbn [filter].
      destruct (String.eqb (key r) k).
      - cbn [map]. apply pd_sum_cons.
      - ring. }
    rewrite (sum_map_ext _ _ ks (fun k _ => E k)).
    rewrite sum_map_add, (sum_indicator ks (key r) (val r) Hnd), IH.
    + cbn [map]. rewrite pd_sum_cons.
      destruct (in_dec string_dec (key r) ks) as [_ | Hn]; [ reflexivity | ].
      exfalso. apply Hn, Hks. now left.
    + intros r' Hr'. apply Hks. now right.
Qed.

(** ** Sortedness of the stable sort *)

Section SortedFacts.
Context {A : Type} (le : A -> A -> bool).
Hypothesis le_total : forall x y, le x y = false -> le y x = true.

Local Abbreviation R := (fun a b : A => le a b = true).

Lemma insert_HdRel (y x : A) (l : list A) :
  R y x -> HdRel R y l -> HdRel R y (insert le x l).
Proof.
  intros Hyx Hl. destruct l as [ | z l ]; simpl.
  - now constructor.
  - destruct (le x z); constructor; [ assumption | ].
    now inversion Hl.
Qed.

Lemma insert_Sorted (x : A) (l : list A) :
  Sorted R l -> Sorted R (insert le x l).
Proof.
  induction 1 as [ | y l Hs IH Hhd ]; simpl.
  - repeat constructor.
  - destruct (le x y) eqn:E.
    + constructor; [ now constructor | now constructor ].
    + constructor; [ assumption | ].
      apply insert_HdRel; [ now apply le_total | assumption ].
Qed.

Lemma sort_by_Sorted (l : list A) : Sorted R (sort_by le l).
Proof.
  induction l as [ | x l IH ]; simpl.
  - constructor.
  - now apply insert_Sorted.
Qed.

End SortedFacts.

Lemma sort_desc_descending (pm : list product_metric) :
  descending (map Total_Sales (sort_desc pm)).
Proof.
  unfold sort_desc.
  set (le := fun a b : product_metric =>
               Qle_bool (Total_Sales b) (Total_Sales a)).
  assert (Hs : Sorted (fun a b => le a b = true) (sort_by le pm)).
  { apply sort_by_Sorted. intros x y H. unfold le in *. qprop.
    apply Qle_bool_iff. lra. }
  induction Hs as [ | x l Hs IH Hhd ]; simpl.
  - exact I.
  - destruct l as [ | y l ]; simpl; [ exact I | ].
    split; [ | exact IH ].
    inversion Hhd as [ | ? ? Hxy ]; subst. unfold le in Hxy. now qprop.
Qed.

(** ** Cumulative percentages *)

Lemma cumsum_from_length (a : Q) (l : list Q) :
  List.length (cumsum_from a l) = List.length l.
Proof.
  revert a. induction l as [ | x l IH ]; simpl; intro a; [ | rewrite IH ];
    reflexivity.
Qed.

Lemma map_snd_combine {A B : Type} (l : list A) (l' : list B) :
  List.length l = List.length l' -> map snd (combine l l') = l'.
Proof.
  revert l'. induction l as [ | x l IH ]; intros [ | y l' ]; simpl;
    intro H; try discriminate; [ reflexivity | ].
  f_equal. apply IH. now injection H.
Qed.

Lemma map_fst_combine {A B : Type} (l : list A) (l' : list B) :
  List.length l = List.length l' -> map fst (combine l l') = l.
Proof.
  revert l'. induction l as [ | x l IH ]; intros [ | y l' ]; simpl;
    intro H; try discriminate; [ reflexivity | ].
  f_equal. apply IH. now injection H.
Qed.

(** The columns of the returned frame, in terms of the sorted totals. *)
Lemma abc_metric_column (data : DataFrame) :
  map metric (calculate_abc_analysis data) = sort_desc (product_metrics data).
Proof.
  unfold calculate_abc_analysis. rewrite map_map.
  change (fun x => metric (abc_columns _ x))
    with (fun x : product_metric * Q => fst x).
  apply map_fst_combine.
  unfold cumsum. now rewrite cumsum_from_length, length_map.
Qed.

Lemma abc_pct_column (data : DataFrame) :
  let totals := map Total_Sales (sort_desc (product_metrics data)) in
  map Cumulative_Pct (calculate_abc_analysis data)
  = map (fun c => cumulative_pct c (pd_sum totals)) (cumsum totals).
Proof.
  cbn zeta. unfold calculate_abc_analysis. rewrite map_map.
  set (total := pd_sum _).
  change (fun x => Cumulative_Pct (abc_columns total x))
    with (fun x : product_metric * Q => cumulative_pct (snd x) total).
  rewrite <- (map_map snd (fun c => cumulative_pct c total)).
  f_equal. apply map_snd_combine.
  unfold cumsum. now rewrite cumsum_from_length, length_map.
Qed.

Lemma cumulative_pct_finite (c total : Q) :
  (0 < total)%Q -> cumulative_pct c total = Fin (c / total * 100)%Q.
Proof.
  intro H. unfold cumulative_pct. rewrite div_finite; [ reflexivity | lra ].
Qed.

Lemma cumulative_pct_mono (c c' total : Q) :
  (0 < total)%Q -> (c <= c')%Q ->
  Num.leb (cumulative_pct c total) (cumulative_pct c' total) = true.
Proof.
  intros Ht Hc. rewrite !cumulative_pct_finite by assumption. simpl.
  apply Qle_bool_iff.
  apply Qmult_le_compat_r; [ | lra ].
  unfold Qdiv. apply Qmult_le_compat_r; [ assumption | ].
  apply Qlt_le_weak, Qinv_lt_0_compat, Ht.
Qed.

Lemma cumsum_pct_nondecreasing (total a : Q) (l : list Q) :
  (0 < total)%Q -> Forall (fun x => 0 <= x)%Q l ->
  nondecreasing (map (fun c => cumulative_pct c total) (cumsum_from a l)).
Proof.
  intros Ht Hl. revert a. induction Hl as [ | x l Hx Hl IH ]; intro a.
  - exact I.
  - destruct l as [ | y l ]; [ exact I | ].
    specialize (IH (a + x)%Q). cbn [cumsum_from map] in *.
    split; [ | exact IH ].
    apply cumulative_pct_mono; [ assumption | ].
    inversion Hl; subst. lra.
Qed.

Lemma last_cumsum_from (a x d : Q) (l : list Q) :
  last (cumsum_from a (x :: l)) d = fold_left Qplus (x :: l) a.
Proof.
  revert a x. induction l as [ | y l IH ]; intros a x.
  - reflexivity.
  - change (cumsum_from a (x :: y :: l))
      with ((a + x)%Q :: cumsum_from (a + x)%Q (y :: l)).
    change (fold_left Qplus (x :: y :: l) a)
      with (fold_left Qplus (y :: l) (a + x)%Q).
    rewrite <- IH. cbn [cumsum_from]. reflexivity.
Qed.

Lemma last_map_cons {A B : Type} (f : A -> B) (x : A) (l : list A)
  (d : A) (d' : B) :
  last (map f (x :: l)) d' = f (last (x :: l) d).
Proof.
  revert x. induction l as [ | y l IH ]; intro x.
  - reflexivity.
  - change (last (map f (x :: y :: l)) d') with (last (map f (y :: l)) d').
    change (last (x :: y :: l) d) with (last (y :: l) d). apply IH.
Qed.

(** The sorted product totals: non-negative, and adding up to the sales of
    the whole table. *)
Lemma product_totals_nonneg (data : DataFrame) :
  Forall (fun r => 0 <= Sales_Amount r)%Q data ->
  Forall (fun x => 0 <= x)%Q
    (map Total_Sales (sort_desc (product_metrics data))).
Proof.
  intro H. apply Forall_forall. intros x Hx.
  apply in_map_iff in Hx. destruct Hx as [m [<- Hm]].
  apply sort_by_In in Hm. unfold product_metrics in Hm.
  apply in_map_iff in Hm. destruct Hm as [p [<- _]]. cbn [Total_Sales].
  apply pd_sum_nonneg. apply Forall_forall. intros s Hs.
  apply in_map_iff in Hs. destruct Hs as [r [<- Hr]].
  unfold group_rows in Hr. apply filter_In in Hr.
  rewrite Forall_forall in H. apply H, Hr.
Qed.

Lemma product_totals_sum (data : DataFrame) :
  (pd_sum (map Total_Sales (sort_desc (product_metrics data)))
   == pd_sum (map Sales_Amount data))%Q.
Proof.
  rewrite (pd_sum_perm _ (map Total_Sales (product_metrics data))).
  2: { apply Permutation_map. apply sort_by_perm. }
  unfold product_metrics. rewrite map_map. cbn [Total_Sales].
  apply group_sums.
  - unfold group_keys, sorted.
    eapply Permutation_NoDup;
      [ apply Permutation_sym, sort_by_perm | apply unique_NoDup ].
  - intros r Hr. unfold group_keys, sorted.
    apply sort_by_In, unique_In. now apply in_map.
Qed.

(** C2 as stated fails: a table whose only order sold for 0 is non-empty and
    has no negative amount, yet its last cumulative percentage is not 100. *)
Lemma zero_total_pct_not_100 :
  ~ (forall df : DataFrame,
        df <> [] -> Forall (fun r => 0 <= Sales_Amount r)%Q df ->
        let pcts := map Cumulative_Pct (calculate_abc_analysis df) in
        nondecreasing pcts /\ Num.within (1 # 1000000) (last pcts NaN) 100).
Proof.
  intro H.
  assert (Hne : free_sample <> []) by discriminate.
  assert (Hpos : Forall (fun r => 0 <= Sales_Amount r)%Q free_sample).
  { repeat constructor. apply Qle_bool_iff. reflexivity. }
  destruct (H free_sample Hne Hpos) as [_ Hlast].
  exact Hlast.
Qed.

(** C2, amended: when no sales amount is negative and the total sales amount
    is positive, the rows are in descending order of total sales, the
    cumulative percentages are non-decreasing in that order, and the last one
    is 100. *)
Theorem cumulative_pct_monotone (df : DataFrame) :
  Forall (fun r => 0 <= Sales_Amount r)%Q df ->
  (0 < pd_sum (map Sales_Amount df))%Q ->
  let table := calculate_abc_analysis df in
  let pcts := map Cumulative_Pct table in
  descending (map Total_Sales (map metric table)) /\
  nondecreasing pcts /\
  (exists q : Q, last pcts NaN = Fin q /\ (q == 100)%Q) /\
  Num.within (1 # 1000000) (last pcts NaN) 100.
Proof.
  intros Hnn Hpos. cbn zeta.
  rewrite abc_metric_column, abc_pct_column. cbn zeta.
  set (totals := map Total_Sales (sort_desc (product_metrics df))).
  assert (Ht : (0 < pd_sum totals)%Q).
  { unfold totals. rewrite product_totals_sum. exact Hpos. }
  assert (Hlast : exists q : Q,
             last (map (fun c => cumulative_pct c (pd_sum totals))
                     (cumsum totals)) NaN = Fin q /\ (q == 100)%Q).
  { destruct totals as [ | x l ] eqn:E.
    - exfalso. revert Ht. unfold pd_sum. simpl. lra.
    - unfold cumsum. cbn [cumsum_from].
      rewrite (last_map_cons _ _ _ 0%Q).
      change ((0 + x)%Q :: cumsum_from (0 + x)%Q l)
        with (cumsum_from 0%Q (x :: l)).
      rewrite last_cumsum_from.
      change (fold_left Qplus (x :: l) 0%Q) with (pd_sum (x :: l)).
      rewrite cumulative_pct_finite by assumption.
      eexists. split; [ reflexivity | ]. field. lra. }
  split; [ apply sort_desc_descending | ].
  split; [ apply cumsum_pct_nondecreasing;
           [ assumption | now apply product_totals_nonneg ] | ].
  split; [ exact Hlast | ].
  destruct Hlast as [q [-> Hq]]. unfold Num.within.
  rewrite Hq. apply Qle_bool_iff. reflexivity.
Qed.

(** The amended C2 at the three products with sales 500, 300 and 200. *)
Lemma cumulative_pct_monotone_three_products :
  Forall (fun r => 0 <= Sales_Amount r)%Q three_products /\
  (0 < pd_sum (map Sales_Amount three_products))%Q /\
  let table := calculate_abc_analysis three_products in
  let pcts := map Cumulative_Pct table in
  descending (map Total_Sales (map metric table)) /\
  nondecreasing pcts /\
  (exists q : Q, last pcts NaN = Fin q /\ (q == 100)%Q) /\
  Num.within (1 # 1000000) (last pcts NaN) 100.
Proof.
  assert (Hnn : Forall (fun r => 0 <= Sales_Amount r)%Q three_products).
  { repeat constructor; apply Qle_bool_iff; reflexivity. }
  assert (Hpos : (0 < pd_sum (map Sales_Amount three_products))%Q).
  { apply Qlt_bool_iff. reflexivity. }
  split; [ exact Hnn | split; [ exact Hpos | ] ].
  exact (cumulative_pct_monotone three_products Hnn Hpos).
Defined.

(** * Further properties *)

(** ** The filtered view *)

Lemma filter_idem {A : Type} (f : A -> bool) (l : list A) :
  filter f (filter f l) = filter f l.
Proof.
  apply filter_all. intros x Hx. apply filter_In in Hx. tauto.
Qed.

Lemma filtered_df_In (df : DataFrame) (start_date end_date : Z)
  (states cities categories : list string) (r : Transaction) :
  In r (filtered_df df start_date end_date states cities categories) <->
  In r df /\
  (start_date <= dt_date (Order_Date r) <= end_date)%Z /\
  In (State r) states /\ In (City r) cities /\ In (Category r) categories.
Proof.
  unfold filtered_df, date_filtered_df.
  rewrite !filter_In, !andb_true_iff, !isin_In, !Z.leb_le. tauto.
Qed.

(** X1: filtering is idempotent: a view filtered again with the selection
    that produced it is unchanged, so a view holds only rows that match its
    own selection. *)
Theorem filtered_df_idempotent (df : DataFrame) (start_date end_date : Z)
  (states cities categories : list string) :
  let view := filtered_df df start_date end_date states cities categories in
  filtered_df view start_date end_date states cities categories = view.
Proof.
  cbn zeta. apply filtered_df_covering. intros r Hr.
  apply filtered_df_In in Hr. tauto.
Qed.

(** X2: an empty state, city or category selection and a start date after
    the end date each give the empty view, whatever the table. *)
Theorem filtered_df_empty_selection (df : DataFrame) (start_date end_date : Z)
  (states cities categories : list string) :
  filtered_df df start_date end_date [] cities categories = [] /\
  filtered_df df start_date end_date states [] categories = [] /\
  filtered_df df start_date end_date states cities [] = [] /\
  ((end_date < start_date)%Z ->
   filtered_df df start_date end_date states cities categories = []).
Proof.
  assert (Hnone : forall s e S C K,
             (forall r, ~ In r (filtered_df df s e S C K)) ->
             filtered_df df s e S C K = []).
  { intros s e S C K H. destruct (filtered_df df s e S C K) as [ | r l ];
      [ reflexivity | ]. exfalso. apply (H r). now left. }
  repeat split; try intro Hlt; apply Hnone; intros r Hr;
    apply filtered_df_In in Hr; simpl in Hr; try tauto; lia.
Qed.

(** X3: the cities offered in the sidebar are exactly the cities of the rows
    whose state is selected, each offered once. *)
Theorem available_cities_of_selected_states (df : DataFrame)
  (selected_states : list string) :
  NoDup (available_cities df selected_states) /\
  forall city : string,
    In city (available_cities df selected_states) <->
    exists r : Transaction,
      In r df /\ In (State r) selected_states /\ City r = city.
Proof.
  unfold available_cities. split; [ apply unique_NoDup | ].
  intro city. rewrite unique_In, in_map_iff. split.
  - intros [r [E Hr]]. apply filter_In in Hr. destruct Hr as [Hr Hs].
    apply isin_In in Hs. now exists r.
  - intros [r [Hr [Hs E]]]. exists r. split; [ assumption | ].
    apply filter_In. split; [ assumption | now apply isin_In ].
Qed.

(** ** The "Total Sales" delta *)

Lemma pd_sum_filter_le (f : Transaction -> bool) (df : DataFrame) :
  Forall (fun r => 0 <= Sales_Amount r)%Q df ->
  (0 <= pd_sum (map Sales_Amount (filter f df))
   <= pd_sum (map Sales_Amount df))%Q.
Proof.
  induction 1 as [ | r df Hr _ IH ].
  - unfold pd_sum. simpl. lra.
  - cbn [filter map]. destruct (f r); cbn [map];
      rewrite ?pd_sum_cons; lra.
Qed.

(** X4: when no sales amount is negative, the delta shown under "Total
    Sales" (the filtered total against the whole table's total, in exact
    arithmetic) lies between -100 and 0: it is never a gain. *)
Theorem total_sales_delta_never_positive (df : DataFrame)
  (start_date end_date : Z) (states cities categories : list string) :
  Forall (fun r => 0 <= Sales_Amount r)%Q df ->
  let view := filtered_df df start_date end_date states cities categories in
  Num.leb (Fin (- 100)) (total_sales_delta df view) = true /\
  Num.leb (total_sales_delta df view) (Fin 0) = true.
Proof.
  intro Hnn. cbn zeta. unfold filtered_df, date_filtered_df.
  match goal with
  | |- context [ filter ?g (filter ?f df) ] => set (f1 := f); set (f2 := g)
  end.
  assert (Hview : (0 <= pd_sum (map Sales_Amount (filter f2 (filter f1 df)))
                   <= pd_sum (map Sales_Amount df))%Q).
  { pose proof (pd_sum_filter_le f1 df Hnn) as H1.
    assert (Hnn1 : Forall (fun r => 0 <= Sales_Amount r)%Q (filter f1 df)).
    { rewrite Forall_forall in *. intros r Hr. apply filter_In in Hr.
      now apply Hnn. }
    pose proof (pd_sum_filter_le f2 _ Hnn1) as H2. lra. }
  unfold total_sales_delta, calculate_growth_rate.
  set (v := pd_sum (map Sales_Amount (filter f2 (filter f1 df)))) in *.
  set (t := pd_sum (map Sales_Amount df)) in *.
  cbn [Num.eqb].
  destruct (Qeq_bool t 0) eqn:E; qprop.
  - split; apply Qle_bool_iff; lra.
  - assert (Ht : (0 < t)%Q) by lra.
    assert (Hab : (Qabs t == t)%Q) by (apply Qabs_pos; lra).
    unfold Num.sub, Num.opp, Num.add, Num.abs.
    rewrite div_finite by (rewrite Hab; lra).
    cbn [Num.mul Num.leb]. rewrite !Qle_bool_iff, Hab.
    split.
    + assert (E1 : (- 100 == (- t) / t * 100)%Q) by (field; lra).
      rewrite E1. apply Qmult_le_compat_r; [ | lra ].
      unfold Qdiv. apply Qmult_le_compat_r;
        [ lra | apply Qlt_le_weak, Qinv_lt_0_compat, Ht ].
    + assert (E0 : (0 == 0 / t * 100)%Q) by (field; lra).
      rewrite E0. apply Qmult_le_compat_r; [ | lra ].
      unfold Qdiv. apply Qmult_le_compat_r;
        [ lra | apply Qlt_le_weak, Qinv_lt_0_compat, Ht ].
Qed.

(** X4 at the two-state table with only Kerala selected. *)
Lemma total_sales_delta_two_states :
  Forall (fun r => 0 <= Sales_Amount r)%Q two_states /\
  let view :=
    filtered_df two_states 0 1 [ "Kerala" ] [ "Kochi" ] [ "Home" ] in
  Num.leb (Fin (- 100)) (total_sales_delta two_states view) = true /\
  Num.leb (total_sales_delta two_states view) (Fin 0) = true.
Proof.
  assert (Hnn : Forall (fun r => 0 <= Sales_Amount r)%Q two_states).
  { repeat constructor; apply Qle_bool_iff; reflexivity. }
  split; [ exact Hnn | ].
  exact (total_sales_delta_never_positive two_states 0 1
           [ "Kerala" ] [ "Kochi" ] [ "Home" ] Hnn).
Defined.

(** ** Sign of the growth rate *)

(** X5: for finite values and a non-zero baseline, the growth rate is
    positive exactly when the current value is above the baseline and zero
    exactly when they are equal, also for a negative baseline. *)
Theorem growth_rate_sign (current previous : Q) :
  ~ (previous == 0)%Q ->
  (Num.ltb (Fin 0) (calculate_growth_rate (Fin current) (Fin previous)) = true
   <-> (previous < current)%Q) /\
  (Num.eqb (calculate_growth_rate (Fin current) (Fin previous)) (Fin 0) = true
   <-> (current == previous)%Q).
Proof.
  intro Hp. unfold calculate_growth_rate. cbn [Num.eqb].
  rewrite (proj2 (Qeq_bool_false_iff previous 0) Hp).
  assert (Hab : (0 < Qabs previous)%Q).
  { apply (Qabs_case previous (fun a => 0 < a)%Q); intro H.
    - destruct (Qle_lt_or_eq _ _ H) as [Hlt | Heq]; [ exact Hlt | ].
      exfalso. apply Hp. now symmetry.
    - destruct (Qle_lt_or_eq _ _ H) as [Hlt | Heq]; [ lra | ].
      contradiction. }
  unfold Num.sub, Num.opp, Num.add, Num.abs.
  rewrite div_finite by lra. cbn [Num.mul Num.ltb Num.eqb].
  rewrite Qlt_bool_iff, Qeq_bool_iff.
  set (a := Qabs previous) in *.
  assert (Hinv : (0 < / a)%Q) by now apply Qinv_lt_0_compat.
  assert (E : ((current + - previous) / a * 100
               == (current - previous) * (100 * / a))%Q) by (field; lra).
  rewrite E.
  assert (Hk : (0 < 100 * / a)%Q).
  { apply Qmult_lt_0_compat; [ reflexivity | assumption ]. }
  set (k := (100 * / a)%Q) in *.
  split; split; intro H.
  - destruct (Qlt_le_dec previous current) as [Hlt | Hle]; [ exact Hlt | ].
    exfalso. assert ((current - previous) * k <= 0 * k)%Q.
    { apply Qmult_le_compat_r; lra. }
    lra.
  - assert (0 * k < (current - previous) * k)%Q.
    { apply Qmult_lt_compat_r; lra. }
    lra.
  - destruct (Qeq_dec current previous) as [Heq | Hne]; [ exact Heq | ].
    exfalso. apply Qmult_integral in H. destruct H as [H | H]; lra.
  - rewrite H. ring.
Qed.

(** X5 at current 50 and baseline -100. *)
Lemma growth_rate_sign_negative_baseline :
  ~ (- 100 == 0)%Q /\
  (Num.ltb (Fin 0) (calculate_growth_rate (Fin 50) (Fin (- 100))) = true
   <-> (- 100 < 50)%Q) /\
  (Num.eqb (calculate_growth_rate (Fin 50) (Fin (- 100))) (Fin 0) = true
   <-> (50 == - 100)%Q).
Proof.
  assert (H : ~ (- 100 == 0)%Q) by (intro H; discriminate H).
  split; [ exact H | exact (growth_rate_sign 50 (- 100) H) ].
Defined.

(** ** Shape of the ABC table *)

Lemma group_keys_perm (key : Transaction -> string) (df : DataFrame) :
  Permutation (group_keys key df) (unique (map key df)).
Proof.
  unfold group_keys, sorted. apply sort_by_perm.
Qed.

Lemma group_keys_NoDup (key : Transaction -> string) (df : DataFrame) :
  NoDup (group_keys key df).
Proof.
  eapply Permutation_NoDup;
    [ apply Permutation_sym, group_keys_perm | apply unique_NoDup ].
Qed.

Lemma group_keys_In (key : Transaction -> string) (df : DataFrame)
  (k : string) :
  In k (group_keys key df) <-> exists r, In r df /\ key r = k.
Proof.
  unfold group_keys, sorted. rewrite sort_by_In, unique_In, in_map_iff.
  split; intros [r [H1 H2]]; exists r; tauto.
Qed.

Lemma abc_products (data : DataFrame) :
  Permutation (map Product (map metric (calculate_abc_analysis data)))
    (unique (map Product_Name data)).
Proof.
  rewrite abc_metric_column. unfold sort_desc.
  rewrite (Permutation_map Product (sort_by_perm _ (product_metrics data))).
  unfold product_metrics. rewrite map_map. cbn [Product]. rewrite map_id.
  apply group_keys_perm.
Qed.

Lemma abc_table_length (data : DataFrame) :
  List.length (calculate_abc_analysis data)
  = List.length (unique (map Product_Name data)).
Proof.
  rewrite <- (Permutation_length (abc_products data)).
  now rewrite !length_map.
Qed.

(** X6: the ABC table has exactly one row per distinct product name of the
    data. *)
Theorem abc_one_row_per_product (data : DataFrame) :
  let products := map Product (map metric (calculate_abc_analysis data)) in
  NoDup products /\
  (forall p : string, In p products <-> In p (map Product_Name data)) /\
  List.length (calculate_abc_analysis data)
  = List.length (unique (map Product_Name data)).
Proof.
  cbn zeta. pose proof (abc_products data) as Hp. split; [ | split ].
  - eapply Permutation_NoDup;
      [ apply Permutation_sym, Hp | apply unique_NoDup ].
  - intro p. rewrite <- (unique_In p (map Product_Name data)).
    split; apply Permutation_in;
      [ exact Hp | apply Permutation_sym, Hp ].
  - apply abc_table_length.
Qed.

(** *** Frequencies *)

Lemma list_sum_cons (x : nat) (l : list nat) :
  list_sum (x :: l) = (x + list_sum l)%nat.
Proof.
  reflexivity.
Qed.

Lemma list_sum_indicator_absent (ks : list string) (k : string) :
  ~ In k ks ->
  list_sum (map (fun k' => if String.eqb k k' then 1 else 0)%nat ks) = 0%nat.
Proof.
  induction ks as [ | k1 ks IH ]; intro H; [ reflexivity | ].
  rewrite map_cons, list_sum_cons. destruct (String.eqb_spec k k1) as [E | _].
  - exfalso. apply H. left. now symmetry.
  - apply IH. intro Hin. apply H. now right.
Qed.

Lemma list_sum_indicator (ks : list string) (k : string) :
  NoDup ks -> In k ks ->
  list_sum (map (fun k' => if String.eqb k k' then 1 else 0)%nat ks) = 1%nat.
Proof.
  induction 1 as [ | k0 ks Hk0 Hnd IH ]; intro Hin; [ contradiction | ].
  rewrite map_cons, list_sum_cons. destruct (String.eqb_spec k k0) as [E | Hne].
  - rewrite list_sum_indicator_absent; [ reflexivity | ]. now rewrite E.
  - destruct Hin as [E | Hin]; [ congruence | ]. now rewrite IH.
Qed.

Lemma list_sum_map_add {K : Type} (f g : K -> nat) (ks : list K) :
  list_sum (map (fun k => f k + g k)%nat ks)
  = (list_sum (map f ks) + list_sum (map g ks))%nat.
Proof.
  induction ks as [ | k ks IH ]; [ reflexivity | ].
  rewrite !map_cons, !list_sum_cons, IH. lia.
Qed.

(** The group sizes add up to the number of rows. *)
Lemma group_lengths (key : Transaction -> string) (ks : list string)
  (df : DataFrame) :
  NoDup ks -> (forall r, In r df -> In (key r) ks) ->
  list_sum (map (fun k => List.length (group_rows key k df)) ks)
  = List.length df.
Proof.
  intro Hnd. induction df as [ | r df IH ]; intro Hks.
  - cbn. induction ks as [ | k ks IHk ]; [ reflexivity | ].
    rewrite map_cons, list_sum_cons. inversion Hnd; subst. now rewrite IHk.
  - rewrite (map_ext _ (fun k => (if String.eqb (key r) k then 1 else 0)
                                 + List.length (group_rows key k df))%nat).
    + rewrite list_sum_map_add, list_sum_indicator, IH.
      * reflexivity.
      * intros r' Hr'. apply Hks. now right.
      * assumption.
      * apply Hks. now left.
    + intro k. unfold group_rows. cbn [filter].
      destruct (String.eqb (key r) k); reflexivity.
Qed.

Lemma product_metrics_In (data : DataFrame) (m : product_metric) :
  In m (sort_desc (product_metrics data)) ->
  exists g : DataFrame,
    g = group_rows Product_Name (Product m) data /\ g <> [] /\
    Total_Sales m = pd_sum (map Sales_Amount g) /\
    Frequency m = List.length g /\
    Avg_Profit m = pd_mean (map Profit_INR g).
Proof.
  intro H. apply sort_by_In in H. unfold product_metrics in H.
  apply in_map_iff in H. destruct H as [p [<- Hp]]. cbn.
  eexists. split; [ reflexivity | ]. split; [ | repeat split ].
  apply group_keys_In in Hp. destruct Hp as [r [Hr E]].
  intro Hnil.
  assert (Hin : In r (group_rows Product_Name p data)).
  { unfold group_rows. apply filter_In. split; [ assumption | ].
    now apply String.eqb_eq. }
  rewrite Hnil in Hin. contradiction.
Qed.

(** X7: every product of the ABC table has at least one order and a finite
    average profit, which times the frequency is the product's profit; and
    the frequencies add up to the number of records. *)
Theorem abc_frequencies (data : DataFrame) :
  let table := calculate_abc_analysis data in
  Forall (fun r =>
            (1 <= Frequency (metric r))%nat /\
            exists avg : Q,
              Avg_Profit (metric r) = Fin avg /\
              (avg * of_count (Frequency (metric r))
               == pd_sum
                    (map Profit_INR
                       (group_rows Product_Name (Product (metric r)) data)))%Q)
    table /\
  list_sum (map Frequency (map metric table)) = List.length data.
Proof.
  cbn zeta. split.
  - apply Forall_forall. intros r Hr.
    assert (Hm : In (metric r) (sort_desc (product_metrics data))).
    { rewrite <- abc_metric_column. now apply in_map. }
    destruct (product_metrics_In data _ Hm) as [g [Eg [Hne [_ [Hf Ha]]]]].
    rewrite Hf, Ha, <- Eg.
    assert (Hlen : (1 <= List.length g)%nat).
    { destruct g; [ contradiction | simpl; lia ]. }
    split; [ assumption | ].
    pose proof (of_count_pos (List.length g) Hlen) as Hpos.
    unfold pd_mean. rewrite length_map, div_finite by lra.
    eexists. split; [ reflexivity | ].
    set (n := of_count (List.length g)) in *. field. lra.
  - rewrite abc_metric_column. unfold sort_desc.
    rewrite (Permutation_map Frequency (sort_by_perm _ (product_metrics data))).
    + unfold product_metrics. rewrite map_map. cbn [Frequency].
      apply group_lengths; [ apply group_keys_NoDup | ].
      intros r Hr. apply group_keys_In. now exists r.
Qed.

(** *** Totals and running sums *)

Lemma abc_cumulative_column (data : DataFrame) :
  map Cumulative_Sales (calculate_abc_analysis data)
  = cumsum (map Total_Sales (sort_desc (product_metrics data))).
Proof.
  unfold calculate_abc_analysis. rewrite map_map.
  change (fun x => Cumulative_Sales (abc_columns _ x))
    with (fun x : product_metric * Q => snd x).
  apply map_snd_combine.
  unfold cumsum. now rewrite cumsum_from_length, length_map.
Qed.

(** X8: in the ABC table the Cumulative_Sales column is the running sum of
    the Total_Sales column, and every row's Total_Revenue_Sum is the sum of
    that column, which is the sales total of the data. *)
Theorem abc_running_totals (data : DataFrame) :
  let table := calculate_abc_analysis data in
  let totals := map Total_Sales (map metric table) in
  map Cumulative_Sales table = cumsum totals /\
  Forall (fun r => Total_Revenue_Sum r = pd_sum totals) table /\
  (pd_sum totals == pd_sum (map Sales_Amount data))%Q.
Proof.
  cbn zeta. rewrite abc_metric_column. split; [ | split ].
  - apply abc_cumulative_column.
  - apply Forall_forall. intros r Hr. unfold calculate_abc_analysis in Hr.
    apply in_map_iff in Hr. destruct Hr as [mc [<- _]]. reflexivity.
  - apply product_totals_sum.
Qed.

(** *** Bounds and order of the percentages *)

Lemma cumsum_from_bounds (a : Q) (l : list Q) :
  Forall (fun x => 0 <= x)%Q l ->
  Forall (fun c => a <= c /\ c <= a + pd_sum l)%Q (cumsum_from a l).
Proof.
  intro H. revert a. induction H as [ | x l Hx Hl IH ]; intro a.
  - constructor.
  - cbn [cumsum_from]. pose proof (pd_sum_nonneg l Hl) as Hs.
    constructor.
    + rewrite pd_sum_cons. lra.
    + specialize (IH (a + x)%Q). rewrite Forall_forall in *.
      intros c Hc. specialize (IH c Hc). rewrite pd_sum_cons. lra.
Qed.

(** X9: when no sales amount is negative and the total is positive, every
    cumulative percentage is a finite number between 0 and 100. *)
Theorem cumulative_pct_bounds (data : DataFrame) :
  Forall (fun r => 0 <= Sales_Amount r)%Q data ->
  (0 < pd_sum (map Sales_Amount data))%Q ->
  Forall (fun pct => exists q : Q, pct = Fin q /\ (0 <= q <= 100)%Q)
    (map Cumulative_Pct (calculate_abc_analysis data)).
Proof.
  intros Hnn Hpos. rewrite abc_pct_column. cbn zeta.
  set (totals := map Total_Sales (sort_desc (product_metrics data))).
  assert (Ht : (0 < pd_sum totals)%Q).
  { unfold totals. rewrite product_totals_sum. exact Hpos. }
  pose proof (cumsum_from_bounds 0 totals (product_totals_nonneg data Hnn))
    as Hb.
  apply Forall_forall. intros pct Hpct. apply in_map_iff in Hpct.
  destruct Hpct as [c [<- Hc]]. rewrite Forall_forall in Hb.
  destruct (Hb c Hc) as [Hlo Hhi].
  rewrite cumulative_pct_finite by assumption.
  eexists. split; [ reflexivity | ].
  set (t := pd_sum totals) in *.
  assert (Hinv : (0 < / t)%Q) by now apply Qinv_lt_0_compat.
  split.
  - assert (E : (0 == 0 / t * 100)%Q) by (field; lra).
    rewrite E. apply Qmult_le_compat_r; [ | lra ].
    unfold Qdiv. apply Qmult_le_compat_r; lra.
  - assert (E : (t / t * 100 == 100)%Q) by (field; lra).
    apply Qle_trans with (t / t * 100)%Q; [ | rewrite E; apply Qle_refl ].
    apply Qmult_le_compat_r; [ | lra ].
    unfold Qdiv. apply Qmult_le_compat_r; lra.
Qed.

(** X9 at the three products. *)
Lemma cumulative_pct_bounds_three_products :
  Forall (fun r => 0 <= Sales_Amount r)%Q three_products /\
  (0 < pd_sum (map Sales_Amount three_products))%Q /\
  Forall (fun pct => exists q : Q, pct = Fin q /\ (0 <= q <= 100)%Q)
    (map Cumulative_Pct (calculate_abc_analysis three_products)).
Proof.
  assert (Hnn : Forall (fun r => 0 <= Sales_Amount r)%Q three_products).
  { repeat constructor; apply Qle_bool_iff; reflexivity. }
  assert (Hpos : (0 < pd_sum (map Sales_Amount three_products))%Q).
  { apply Qlt_bool_iff. reflexivity. }
  split; [ exact Hnn | split; [ exact Hpos | ] ].
  exact (cumulative_pct_bounds three_products Hnn Hpos).
Defined.

Lemma leb_trans (x y z : num) :
  Num.leb x y = true -> Num.leb y z = true -> Num.leb x z = true.
Proof.
  destruct x, y, z; simpl; try congruence.
  intros H1 H2. qprop. apply Qle_bool_iff. lra.
Qed.

Lemma abc_class_column (data : DataFrame) :
  map Class (calculate_abc_analysis data)
  = map categorize_abc (map Cumulative_Pct (calculate_abc_analysis data)).
Proof.
  rewrite map_map. apply map_ext_in. intros r Hr.
  now destruct (abc_rows_inv data r Hr) as [Hc _].
Qed.

(** Along non-decreasing percentages the classes come in blocks. *)
Lemma classes_in_blocks (pcts : list num) :
  nondecreasing pcts ->
  exists a b c : nat,
    map categorize_abc pcts
    = (repeat "A" a ++ repeat "B" b ++ repeat "C" c)%list.
Proof.
  induction pcts as [ | x rest IH ]; intro H.
  - now exists O, O, O.
  - assert (Hrest : nondecreasing rest).
    { destruct rest; [ exact I | apply H ]. }
    destruct (IH Hrest) as [a [b [c E]]].
    assert (Hhead : forall y rest', rest = y :: rest' -> Num.leb x y = true).
    { intros y rest' ->. apply H. }
    cbn [map]. rewrite E.
    destruct (categorize_abc_cases x) as [Ex | [Ex | Ex]]; rewrite Ex.
    + exists (S a), b, c. reflexivity.
    + apply categorize_abc_B in Ex. destruct Ex as [Hx80 Hx95].
      destruct a as [ | a ].
      * exists O, (S b), c. reflexivity.
      * exfalso. destruct rest as [ | y rest' ]; [ discriminate E | ].
        cbn in E. injection E as Ey _. apply categorize_abc_A in Ey.
        rewrite (leb_trans x y _ (Hhead y rest' eq_refl) Ey) in Hx80.
        discriminate Hx80.
    + apply categorize_abc_C in Ex. destruct Ex as [Hx80 Hx95].
      destruct rest as [ | y rest' ].
      * exists O, O, 1%nat. destruct a, b, c; try discriminate E. reflexivity.
      * pose proof (Hhead y rest' eq_refl) as Hxy.
        destruct a as [ | a ].
        -- destruct b as [ | b ].
           ++ exists O, O, (S c). reflexivity.
           ++ exfalso. cbn in E. injection E as Ey _.
              apply categorize_abc_B in Ey. destruct Ey as [_ Hy95].
              rewrite (leb_trans x y _ Hxy Hy95) in Hx95. discriminate Hx95.
        -- exfalso. cbn in E. injection E as Ey _.
           apply categorize_abc_A in Ey.
           rewrite (leb_trans x y _ Hxy Ey) in Hx80. discriminate Hx80.
Qed.

Lemma cumulative_pct_zero_total (c total : Q) :
  (0 <= c)%Q -> (total == 0)%Q ->
  categorize_abc (cumulative_pct c total) = "C".
Proof.
  intros Hc Ht. unfold cumulative_pct. cbn [Num.div].
  rewrite (Qeq_eq_bool _ _ Ht). unfold by_sign.
  destruct (c ?= 0)%Q eqn:E.
  - reflexivity.
  - exfalso. apply Qlt_alt in E. lra.
  - reflexivity.
Qed.

(** X10: when no sales amount is negative, the classes of the ABC table
    come in blocks down the table: first the A rows, then the B rows, then
    the C rows (any of the blocks may be empty). *)
Theorem abc_classes_in_blocks (data : DataFrame) :
  Forall (fun r => 0 <= Sales_Amount r)%Q data ->
  exists a b c : nat,
    map Class (calculate_abc_analysis data)
    = (repeat "A" a ++ repeat "B" b ++ repeat "C" c)%list.
Proof.
  intro Hnn. rewrite abc_class_column, abc_pct_column. cbn zeta.
  set (totals := map Total_Sales (sort_desc (product_metrics data))).
  pose proof (product_totals_nonneg data Hnn) as Htot. fold totals in Htot.
  destruct (Qlt_le_dec 0 (pd_sum totals)) as [Hpos | Hle].
  - apply classes_in_blocks. unfold cumsum.
    now apply cumsum_pct_nondecreasing.
  - assert (Hz : (pd_sum totals == 0)%Q).
    { pose proof (pd_sum_nonneg totals Htot). lra. }
    exists O, O, (List.length (cumsum totals)). cbn [repeat app].
    rewrite map_map.
    pose proof (cumsum_from_bounds 0 totals Htot) as Hb.
    fold (cumsum totals) in Hb.
    induction (cumsum totals) as [ | c l IH ]; [ reflexivity | ].
    inversion Hb as [ | ? ? [Hc _] Hl ]; subst.
    cbn [map List.length repeat]. f_equal.
    + now apply cumulative_pct_zero_total.
    + now apply IH.
Qed.

(** X10 at the three products. *)
Lemma abc_classes_in_blocks_three_products :
  Forall (fun r => 0 <= Sales_Amount r)%Q three_products /\
  exists a b c : nat,
    map Class (calculate_abc_analysis three_products)
    = (repeat "A" a ++ repeat "B" b ++ repeat "C" c)%list.
Proof.
  assert (Hnn : Forall (fun r => 0 <= Sales_Amount r)%Q three_products).
  { repeat constructor; apply Qle_bool_iff; reflexivity. }
  split; [ exact Hnn | exact (abc_classes_in_blocks three_products Hnn) ].
Defined.

(** *** The last row *)

Lemma cumulative_pct_whole (total : Q) :
  categorize_abc (cumulative_pct total total) = "C".
Proof.
  unfold cumulative_pct. cbn [Num.div].
  destruct (Qeq_bool total 0) eqn:E; qprop.
  - unfold by_sign. rewrite (proj1 (Qeq_alt total 0) E). reflexivity.
  - cbn [Num.mul]. apply categorize_abc_C. cbn [Num.leb].
    assert (H : (total / total * 100 == 100)%Q) by (field; assumption).
    split; apply Qle_bool_false_iff; rewrite H; reflexivity.
Qed.

Lemma last_map_nonempty {A B : Type} (f : A -> B) (l : list A)
  (d : A) (d' : B) :
  l <> [] -> last (map f l) d' = f (last l d).
Proof.
  destruct l as [ | x l ]; [ congruence | ].
  intros _. apply last_map_cons.
Qed.

Lemma abc_recommendation_column (data : DataFrame) :
  map Recommendation (calculate_abc_analysis data)
  = map recommend (map Class (calculate_abc_analysis data)).
Proof.
  rewrite map_map. apply map_ext_in. intros r Hr.
  now destruct (abc_rows_inv data r Hr) as [_ [Hrec _]].
Qed.

(** X11: the last row of the ABC table of any non-empty data is in class C;
    so a view with a single product, however well it sells, gets the
    "Monitor / Clearance" recommendation. *)
Theorem abc_last_row_class_C (r : Transaction) (data : DataFrame) :
  let table := calculate_abc_analysis (r :: data) in
  table <> [] /\
  last (map Class table) "" = "C" /\
  last (map Recommendation table) "" = "📉 Monitor / Clearance".
Proof.
  cbn zeta.
  assert (Hlen : List.length (calculate_abc_analysis (r :: data)) <> O).
  { rewrite abc_table_length. cbn [map unique List.length]. discriminate. }
  assert (Hne : calculate_abc_analysis (r :: data) <> []).
  { intro E. rewrite E in Hlen. now elim Hlen. }
  assert (Hc : last (map Class (calculate_abc_analysis (r :: data))) "" = "C").
  { rewrite abc_class_column, abc_pct_column. cbn zeta.
    rewrite <- (length_map Cumulative_Pct), abc_pct_column in Hlen.
    cbn zeta in Hlen. rewrite !length_map in Hlen.
    unfold cumsum in *. rewrite cumsum_from_length in Hlen.
    destruct (map Total_Sales (sort_desc (product_metrics (r :: data))))
      as [ | x l ]; [ now elim Hlen | ].
    rewrite map_map. cbn [cumsum_from].
    rewrite (last_map_cons _ _ _ 0%Q "").
    change ((0 + x)%Q :: cumsum_from (0 + x)%Q l)
      with (cumsum_from 0%Q (x :: l)).
    rewrite last_cumsum_from. apply cumulative_pct_whole. }
  split; [ exact Hne | split; [ exact Hc | ] ].
  rewrite abc_recommendation_column.
  rewrite (last_map_nonempty recommend _ "" "").
  - now rewrite Hc.
  - intro E. apply map_eq_nil in E. contradiction.
Qed.

(** *** The top of the table *)

Lemma StronglySorted_app_inv {A : Type} (R : A -> A -> Prop)
  (l1 l2 : list A) :
  StronglySorted R (l1 ++ l2) ->
  Forall (fun x => Forall (R x) l2) l1.
Proof.
  induction l1 as [ | x l1 IH ]; cbn [app]; intro H.
  - constructor.
  - inversion H as [ | ? ? Hs Hall ]; subst. constructor.
    + apply Forall_app in Hall. tauto.
    + now apply IH.
Qed.

Lemma sort_desc_StronglySorted (pm : list product_metric) :
  StronglySorted (fun a b => (Total_Sales b <= Total_Sales a)%Q)
    (sort_desc pm).
Proof.
  apply Sorted_StronglySorted.
  - intros a b c Hab Hbc. lra.
  - unfold sort_desc.
    set (le := fun a b : product_metric =>
                 Qle_bool (Total_Sales b) (Total_Sales a)).
    assert (Hs : Sorted (fun a b => le a b = true) (sort_by le pm)).
    { apply sort_by_Sorted. intros x y H. unfold le in *. qprop.
      apply Qle_bool_iff. lra. }
    induction Hs as [ | x l Hs IH Hhd ]; constructor; [ assumption | ].
    destruct Hhd as [ | y l Hxy ]; constructor.
    unfold le in Hxy. now qprop.
Qed.

(** X12: [head(n)] of the ABC table keeps the best sellers: every product it
    leaves out has total sales at most those of every product it shows (as
    for the 50 products of the Pareto chart and the 15 of the
    recommendation list). *)
Theorem head_keeps_best_sellers (data : DataFrame) (n : nat) :
  let table := calculate_abc_analysis data in
  Forall (fun shown =>
            Forall (fun hidden =>
                      (Total_Sales (metric hidden)
                       <= Total_Sales (metric shown))%Q)
              (skipn n table))
    (head n table) /\
  List.length (head n table) = Nat.min n (List.length table) /\
  pareto_view table = head 50 table.
Proof.
  cbn zeta. split; [ | split; [ apply length_firstn | reflexivity ] ].
  unfold head.
  pose proof (sort_desc_StronglySorted (product_metrics data)) as Hs.
  rewrite <- abc_metric_column in Hs.
  rewrite <- (firstn_skipn n (calculate_abc_analysis data)) in Hs.
  rewrite map_app in Hs. apply StronglySorted_app_inv in Hs.
  rewrite Forall_forall in *. intros shown Hshown.
  specialize (Hs (metric shown) (in_map metric _ _ Hshown)).
  rewrite Forall_forall in *. intros hidden Hhidden.
  apply (Hs (metric hidden)). now apply in_map.
Qed.

(** *** The top-ten chart *)

Section SortMap.
Context {A B : Type} (f : A -> B) (le : B -> B -> bool).

Lemma insert_map (x : A) (l : list A) :
  map f (insert (fun a b => le (f a) (f b)) x l) = insert le (f x) (map f l).
Proof.
  induction l as [ | y l IH ]; cbn [insert map]; [ reflexivity | ].
  destruct (le (f x) (f y)); cbn [map]; [ reflexivity | now rewrite IH ].
Qed.

Lemma sort_by_map (l : list A) :
  map f (sort_by (fun a b => le (f a) (f b)) l) = sort_by le (map f l).
Proof.
  induction l as [ | x l IH ]; cbn [sort_by map]; [ reflexivity | ].
  now rewrite insert_map, IH.
Qed.

End SortMap.

(** X13: the "Top 10 Products" chart shows the sales totals of the first ten
    rows of the ABC table, and at most ten bars. *)
Theorem top_prods_are_abc_head (df : DataFrame) :
  map snd (top_prods df)
  = firstn 10 (map Total_Sales (map metric (calculate_abc_analysis df))) /\
  (List.length (top_prods df) <= 10)%nat /\
  List.length (top_prods df)
  = Nat.min 10 (List.length (unique (map Product_Name df))).
Proof.
  assert (E : map snd (top_prods df)
              = firstn 10 (map Total_Sales
                             (map metric (calculate_abc_analysis df)))).
  { unfold top_prods, nlargest. rewrite abc_metric_column. unfold sort_desc.
    rewrite <- firstn_map. f_equal.
    rewrite (sort_by_map snd (fun x y : Q => Qle_bool y x)).
    rewrite (sort_by_map Total_Sales (fun x y : Q => Qle_bool y x)).
    f_equal. unfold groupby_sum, product_metrics. now rewrite !map_map. }
  assert (L : List.length (top_prods df)
              = Nat.min 10 (List.length (unique (map Product_Name df)))).
  { rewrite <- (length_map snd), E, length_firstn, !length_map.
    now rewrite abc_table_length. }
  split; [ exact E | split; [ | exact L ] ].
  rewrite L. lia.
Qed.

(** ** The category breakdown *)

Lemma int_sum_inject (l : list Z) :
  (inject_Z (int_sum l) == pd_sum (map inject_Z l))%Q.
Proof.
  unfold int_sum, pd_sum. change 0%Q with (inject_Z 0).
  generalize 0%Z as a.
  induction l as [ | x l IH ]; intro a; cbn [fold_left map].
  - reflexivity.
  - rewrite IH. rewrite !fold_left_Qplus, inject_Z_plus. reflexivity.
Qed.

(** X14: the category breakdown has one row per distinct category, and its
    profit, sales and quantity columns add up to the totals of the table. *)
Theorem category_profit_partition (df : DataFrame) :
  let rows := snd (analyze_profitability df) in
  NoDup (map cp_Category rows) /\
  (forall c : string, In c (map cp_Category rows) <-> In c (map Category df)) /\
  (pd_sum (map cp_Profit rows)
   == fst (fst (fst (analyze_profitability df))))%Q /\
  (pd_sum (map cp_Sales rows) == pd_sum (map Sales_Amount df))%Q /\
  int_sum (map cp_Quantity rows) = int_sum (map Quantity df).
Proof.
  cbn zeta. unfold analyze_profitability. cbn [fst snd].
  unfold category_profit. rewrite !map_map.
  cbn [cp_Category cp_Profit cp_Sales cp_Quantity].
  assert (Hcover : forall r,
             In r df -> In (Category r) (group_keys Category df)).
  { intros r Hr. apply group_keys_In. now exists r. }
  rewrite map_id.
  split; [ apply group_keys_NoDup | ].
  split.
  { intro c. rewrite group_keys_In, in_map_iff.
    split; intros [r [H1 H2]]; exists r; tauto. }
  split; [ apply group_sums; [ apply group_keys_NoDup | assumption ] | ].
  split; [ apply group_sums; [ apply group_keys_NoDup | assumption ] | ].
  apply inject_Z_injective.
  rewrite !int_sum_inject, !map_map.
  rewrite (sum_map_ext _ (fun k => pd_sum (map (fun r => inject_Z (Quantity r))
                                            (group_rows Category k df)))).
  - rewrite <- (map_map Quantity inject_Z df), map_map.
    apply group_sums; [ apply group_keys_NoDup | assumption ].
  - intros k _. rewrite int_sum_inject, map_map. reflexivity.
Qed.

(** X15: on a non-empty table the average profit is finite, and times the
    number of records it is the total profit. *)
Theorem avg_profit_times_count (r : Transaction) (df : DataFrame) :
  let result := analyze_profitability (r :: df) in
  exists avg : Q,
    snd (fst (fst result)) = Fin avg /\
    (avg * of_count (List.length (r :: df)) == fst (fst (fst result)))%Q.
Proof.
  cbn zeta. unfold analyze_profitability. cbn [fst snd]. unfold pd_mean.
  rewrite length_map.
  pose proof (of_count_pos (List.length (r :: df)) ltac:(simpl; lia)) as Hpos.
  rewrite div_finite by lra.
  eexists. split; [ reflexivity | ].
  set (n := of_count (List.length (r :: df))) in *. field. lra.
Qed.

(** *** Rounding of the category margin *)

Lemma rint_close (q : Q) : (Qabs (inject_Z (rint q) - q) <= 1 # 2)%Q.
Proof.
  pose proof (Qfloor_le q) as Hlo. pose proof (Qlt_floor q) as Hhi.
  unfold rint. set (f := Qfloor q) in *.
  rewrite inject_Z_plus in Hhi. change (inject_Z 1) with 1%Q in Hhi.
  assert (Hcase : forall z : Q,
             (- (1 # 2) <= z - q)%Q -> (z - q <= 1 # 2)%Q ->
             (Qabs (z - q) <= 1 # 2)%Q).
  { intros z H1 H2. apply Qabs_Qle_condition. split; assumption. }
  destruct (Qcompare (q - inject_Z f) (1 # 2)) eqn:E.
  - apply Qeq_alt in E.
    destruct (Z.even f); apply Hcase;
      rewrite ?inject_Z_plus; change (inject_Z 1) with 1%Q; lra.
  - apply Qlt_alt in E. apply Hcase; lra.
  - apply Qgt_alt in E. apply Hcase;
      rewrite ?inject_Z_plus; change (inject_Z 1) with 1%Q; lra.
Qed.

(** X16: for a category with non-zero sales, Margin% is a whole number of
    hundredths, within 0.005 of profit / sales * 100 (in exact arithmetic). *)
Theorem category_margin_rounded (df : DataFrame) :
  Forall (fun row =>
            ~ (cp_Sales row == 0)%Q ->
            exists (m : Q) (k : Z),
              Margin_pct row = Fin m /\ (m == inject_Z k / 100)%Q /\
              (Qabs (m - cp_Profit row / cp_Sales row * 100) <= 1 # 200)%Q)
    (snd (analyze_profitability df)).
Proof.
  apply Forall_forall. intros row Hin Hs.
  cbn [snd analyze_profitability] in Hin.
  rewrite (category_profit_inv df row Hin).
  rewrite div_finite by assumption. cbn [Num.mul Num.round2].
  set (x := (cp_Profit row / cp_Sales row * 100)%Q).
  exists (inject_Z (rint (x * 100)) / 100)%Q, (rint (x * 100)).
  split; [ reflexivity | split; [ reflexivity | ] ].
  pose proof (rint_close (x * 100)) as H.
  apply Qabs_Qle_condition in H. destruct H as [H1 H2].
  apply Qabs_Qle_condition.
  set (z := inject_Z (rint (x * 100))) in *.
  assert (E : (z / 100 - x == (z - x * 100) / 100)%Q) by field.
  rewrite E. split.
  - apply Qle_shift_div_l; [ reflexivity | ].
    assert (E2 : (- (1 # 200) * 100 == - (1 # 2))%Q) by reflexivity.
    rewrite E2. exact H1.
  - apply Qle_shift_div_r; [ reflexivity | ].
    assert (E2 : ((1 # 200) * 100 == 1 # 2)%Q) by reflexivity.
    rewrite E2. exact H2.
Qed.

(** ** Status counts and returns *)

Lemma list_sum_perm (l l' : list nat) :
  Permutation l l' -> list_sum l = list_sum l'.
Proof.
  induction 1 as [ | x l l' _ IH | x y l | l l' l'' _ IH1 _ IH2 ].
  - reflexivity.
  - rewrite !list_sum_cons. now rewrite IH.
  - rewrite !list_sum_cons. lia.
  - now rewrite IH1.
Qed.

(** The occurrence counts of distinct values that cover a column add up to
    its length. *)
Lemma count_occ_partition (col ks : list string) :
  NoDup ks -> (forall x, In x col -> In x ks) ->
  list_sum (map (count_occ string_dec col) ks) = List.length col.
Proof.
  intro Hnd. induction col as [ | x col IH ]; intro Hks.
  - cbn. induction ks as [ | k ks IHk ]; [ reflexivity | ].
    rewrite map_cons, list_sum_cons. inversion Hnd; subst. now rewrite IHk.
  - rewrite (map_ext _ (fun k => (if String.eqb x k then 1 else 0)
                                 + count_occ string_dec col k)%nat).
    + rewrite list_sum_map_add, list_sum_indicator, IH.
      * reflexivity.
      * intros y Hy. apply Hks. now right.
      * assumption.
      * apply Hks. now left.
    + intro k. cbn [count_occ].
      destruct (string_dec x k) as [-> | Hne].
      * now rewrite String.eqb_refl.
      * apply String.eqb_neq in Hne. now rewrite Hne.
Qed.

Lemma value_counts_In (col : list string) (e : string * nat) :
  In e (value_counts col) <->
  In (fst e) col /\ snd e = count_occ string_dec col (fst e).
Proof.
  unfold value_counts. rewrite sort_by_In, in_map_iff. split.
  - intros [v [<- Hv]]. apply (proj1 (unique_In v col)) in Hv. cbn [fst snd].
    split; [ assumption | reflexivity ].
  - intros [Hin Hc]. exists (fst e). split.
    + destruct e as [k n]. cbn in *. now subst.
    + now apply unique_In.
Qed.

(** X17: [value_counts] lists every distinct value once, with its number of
    occurrences, which is at least 1; the counts add up to the number of
    rows and never increase down the list.  So it is for the status counts
    returned by [analyze_operations]. *)
Theorem status_counts_shape (df : DataFrame) :
  let statuses := map Order_Status df in
  let status_counts := fst (fst (fst (analyze_operations df))) in
  NoDup (map fst status_counts) /\
  Forall (fun e => In (fst e) statuses /\ (1 <= snd e)%nat /\
                   snd e = count_occ string_dec statuses (fst e))
    status_counts /\
  list_sum (map snd status_counts) = List.length df /\
  Sorted (fun a b => (snd b <= snd a)%nat) status_counts.
Proof.
  cbn zeta. unfold analyze_operations. cbn [fst].
  set (col := map Order_Status df).
  split; [ | split; [ | split ] ].
  - eapply Permutation_NoDup;
      [ apply Permutation_sym, value_counts_keys | apply unique_NoDup ].
  - apply Forall_forall. intros e He. apply value_counts_In in He.
    destruct He as [Hin Hc]. repeat split; try assumption.
    rewrite Hc. now apply count_occ_In.
  - unfold value_counts.
    rewrite (list_sum_perm _ _ (Permutation_map snd (sort_by_perm _ _))).
    rewrite map_map. cbn [snd].
    rewrite count_occ_partition.
    + unfold col. apply length_map.
    + apply unique_NoDup.
    + intros x Hx. now apply unique_In.
  - unfold value_counts.
    set (le := fun a b : string * nat => Nat.leb (snd b) (snd a)).
    assert (Hs : Sorted (fun a b => le a b = true)
                   (sort_by le
                      (map (fun v => (v, count_occ string_dec col v))
                         (unique col)))).
    { apply sort_by_Sorted. intros x y H. unfold le in *.
      apply Nat.leb_gt in H. apply Nat.leb_le. lia. }
    induction Hs as [ | x l Hs IH Hhd ]; constructor; [ assumption | ].
    destruct Hhd as [ | y l Hxy ]; constructor.
    unfold le in Hxy. now apply Nat.leb_le.
Qed.

Lemma filter_length_count (df : DataFrame) (f : Transaction -> string)
  (v : string) :
  List.length (filter (fun r => String.eqb (f r) v) df)
  = count_occ string_dec (map f df) v.
Proof.
  induction df as [ | r df IH ]; [ reflexivity | ].
  cbn [filter map count_occ].
  destruct (string_dec (f r) v) as [E | Hne].
  - rewrite E, String.eqb_refl. cbn [List.length]. now rewrite IH.
  - apply String.eqb_neq in Hne. now rewrite Hne.
Qed.

Lemma rate_zero_iff (n t : nat) :
  (n <= t)%nat -> (Num.eqb (rate n t) (Fin 0) = true <-> n = O).
Proof.
  intro Hle. destruct t as [ | t ].
  - cbn. split; [ lia | reflexivity ].
  - rewrite rate_positive by lia. cbn [Num.eqb]. rewrite Qeq_bool_iff.
    pose proof (of_count_pos (S t) ltac:(lia)) as Hpos.
    set (d := of_count (S t)) in *. split.
    + intro H. destruct n as [ | n ]; [ reflexivity | exfalso ].
      pose proof (of_count_pos (S n) ltac:(lia)) as Hn.
      set (c := of_count (S n)) in *.
      assert (E : (c == c / d * 100 * (d / 100))%Q) by (field; lra).
      rewrite H in E. lra.
    + intros ->. change (of_count 0) with 0%Q. field. lra.
Qed.

(** X18: the table of returned orders has as many rows as the 'Returned'
    entry of the status counts, and it is empty (the "no return data" notes
    are shown) exactly when the return rate is 0. *)
Theorem returns_df_matches_return_rate (df : DataFrame) :
  let status_counts := fst (fst (fst (analyze_operations df))) in
  let return_rate := snd (fst (analyze_operations df)) in
  List.length (returns_df df) = get status_counts "Returned" 0 /\
  (returns_df df = [] <-> Num.eqb return_rate (Fin 0) = true) /\
  list_sum (map snd (ret_cat df)) = List.length (returns_df df).
Proof.
  cbn zeta. unfold analyze_operations. cbn [fst snd].
  rewrite !value_counts_get.
  assert (Hlen : List.length (returns_df df)
                 = count_occ string_dec (map Order_Status df) "Returned").
  { apply filter_length_count. }
  split; [ exact Hlen | split ].
  - rewrite rate_zero_iff.
    + rewrite <- Hlen. split.
      * now intros ->.
      * apply length_zero_iff_nil.
    + rewrite <- Hlen. unfold returns_df. apply filter_length_le.
  - unfold ret_cat, value_counts.
    rewrite (list_sum_perm _ _ (Permutation_map snd (sort_by_perm _ _))).
    rewrite map_map. cbn [snd].
    rewrite count_occ_partition.
    + apply length_map.
    + apply unique_NoDup.
    + intros x Hx. now apply unique_In.
Qed.

(** *** The most returned products *)

Lemma sort_by_sorted_id {A : Type} (le : A -> A -> bool) (l : list A) :
  Sorted (fun a b => le a b = true) l -> sort_by le l = l.
Proof.
  induction 1 as [ | x l Hs IH Hhd ]; [ reflexivity | ].
  cbn [sort_by]. rewrite IH.
  destruct Hhd as [ | y l Hxy ]; cbn [insert]; [ reflexivity | ].
  now rewrite Hxy.
Qed.

Lemma In_firstn {A : Type} (n : nat) (l : list A) (x : A) :
  In x (firstn n l) -> In x l.
Proof.
  intro H. rewrite <- (firstn_skipn n l). apply in_or_app. now left.
Qed.

(** X19: the "Top Returned Products" chart shows at most ten products, the
    first ten of the returned products' counts: taking the ten largest of
    counts that are already in descending order re-orders nothing.  Every
    product shown has at least one returned order. *)
Theorem top_ret_prods_first_ten (df : DataFrame) :
  let returned := map Product_Name (returns_df df) in
  top_ret_prods df = firstn 10 (value_counts returned) /\
  (List.length (top_ret_prods df) <= 10)%nat /\
  Forall (fun e => (1 <= snd e)%nat /\
                   snd e = count_occ string_dec returned (fst e))
    (top_ret_prods df).
Proof.
  cbn zeta.
  set (returned := map Product_Name (returns_df df)).
  assert (E : top_ret_prods df = firstn 10 (value_counts returned)).
  { unfold top_ret_prods. fold returned. f_equal.
    apply sort_by_sorted_id. unfold value_counts.
    apply sort_by_Sorted. intros x y H.
    apply Nat.leb_gt in H. apply Nat.leb_le. lia. }
  split; [ exact E | split ].
  - rewrite E, length_firstn. lia.
  - rewrite E. apply Forall_forall. intros e He.
    apply In_firstn in He.
    apply value_counts_In in He. destruct He as [Hin Hc].
    split; [ | assumption ]. rewrite Hc. now apply count_occ_In.
Qed.

(** ** The scenario calculator *)

(** X20: with the inputs in the range the widgets allow (-50 to 200 per
    cent) and a non-negative current revenue, the projected revenue lies
    between a quarter of and nine times the current revenue (in exact
    arithmetic). *)
Theorem projected_revenue_bounds (current_revenue vol_change price_change : Q) :
  (0 <= current_revenue)%Q ->
  (- 50 <= vol_change <= 200)%Q ->
  (- 50 <= price_change <= 200)%Q ->
  (current_revenue / 4
   <= projected_revenue current_revenue vol_change price_change
   <= 9 * current_revenue)%Q.
Proof.
  intros Hc [Hv1 Hv2] [Hp1 Hp2]. unfold projected_revenue.
  set (a := (1 + vol_change / 100)%Q).
  set (b := (1 + price_change / 100)%Q).
  assert (Ha : (1 # 2 <= a <= 3)%Q).
  { unfold a. split.
    - assert (- (1 # 2) <= vol_change / 100)%Q
        by (apply Qle_shift_div_l; [ reflexivity | lra ]). lra.
    - assert (vol_change / 100 <= 2)%Q
        by (apply Qle_shift_div_r; [ reflexivity | lra ]). lra. }
  assert (Hb : (1 # 2 <= b <= 3)%Q).
  { unfold b. split.
    - assert (- (1 # 2) <= price_change / 100)%Q
        by (apply Qle_shift_div_l; [ reflexivity | lra ]). lra.
    - assert (price_change / 100 <= 2)%Q
        by (apply Qle_shift_div_r; [ reflexivity | lra ]). lra. }
  clearbody a b. destruct Ha as [Ha1 Ha2]. destruct Hb as [Hb1 Hb2].
  assert (Hca : (current_revenue * (1 # 2) <= current_revenue * a
                 <= current_revenue * 3)%Q).
  { split; rewrite !(Qmult_comm current_revenue);
      apply Qmult_le_compat_r; assumption. }
  assert (Hca0 : (0 <= current_revenue * a)%Q) by lra.
  assert (Hcab : (current_revenue * a * (1 # 2) <= current_revenue * a * b
                  <= current_revenue * a * 3)%Q).
  { split; rewrite !(Qmult_comm (current_revenue * a));
      apply Qmult_le_compat_r; assumption. }
  assert (E : (current_revenue / 4 == current_revenue * (1 # 4))%Q) by field.
  rewrite E. lra.
Qed.

(** X20 at the widgets' default inputs. *)
Lemma projected_revenue_bounds_defaults :
  (0 <= 1000)%Q /\ (- 50 <= 10 <= 200)%Q /\ (- 50 <= 5 <= 200)%Q /\
  (1000 / 4 <= projected_revenue 1000 10 5 <= 9 * 1000)%Q.
Proof.
  assert (H0 : (0 <= 1000)%Q) by (apply Qle_bool_iff; reflexivity).
  assert (H1 : (- 50 <= 10 <= 200)%Q)
    by (split; apply Qle_bool_iff; reflexivity).
  assert (H2 : (- 50 <= 5 <= 200)%Q)
    by (split; apply Qle_bool_iff; reflexivity).
  split; [ exact H0 | split; [ exact H1 | split; [ exact H2 | ] ] ].
  exact (projected_revenue_bounds 1000 10 5 H0 H1 H2).
Defined.



(** ** Column renaming *)

(** X22: renaming the columns is idempotent, and afterwards no column
    carries one of the four old names. *)
Theorem rename_idempotent (columns : list string) :
  rename column_mapping (rename column_mapping columns)
  = rename column_mapping columns /\
  Forall (fun c => ~ In c (map fst column_mapping))
    (rename column_mapping columns).
Proof.
  assert (Hone : forall name,
             rename_column column_mapping (rename_column column_mapping name)
             = rename_column column_mapping name /\
             ~ In (rename_column column_mapping name)
                 (map fst column_mapping)).
  { intro name. unfold rename_column at 2 3 4, column_mapping.
    cbn [find fst snd map].
    destruct (String.eqb_spec "Final Sales Amount (INR)" name) as [E1 | N1];
      [ split; [ reflexivity | cbn; intuition discriminate ] | ].
    destruct (String.eqb_spec "Sales" name) as [E2 | N2];
      [ split; [ reflexivity | cbn; intuition discriminate ] | ].
    destruct (String.eqb_spec "Profit" name) as [E3 | N3];
      [ split; [ reflexivity | cbn; intuition discriminate ] | ].
    destruct (String.eqb_spec "Unit Price" name) as [E4 | N4];
      [ split; [ reflexivity | cbn; intuition discriminate ] | ].
    split.
    - unfold rename_column, column_mapping. cbn [find fst snd].
      apply String.eqb_neq in N1, N2, N3, N4.
      now rewrite N1, N2, N3, N4.
    - cbn. intuition congruence. }
  split.
  - unfold rename. rewrite map_map. apply map_ext. intro name. apply Hone.
  - unfold rename. apply Forall_forall. intros c Hc.
    apply in_map_iff in Hc. destruct Hc as [name [<- _]]. apply Hone.
Qed.

(** ** The inventory simulation *)


(** ** Days of the week *)

Lemma day_name_index (t : Z) :
  (0 <= (dt_date t + 3) mod 7 < 7)%Z.
Proof.
  apply Z.mod_pos_bound. lia.
Qed.

Ltac seven_cases m H :=
  assert (H : (m = 0 \/ m = 1 \/ m = 2 \/ m = 3 \/ m = 4 \/ m = 5 \/ m = 6)%Z)
    by lia;
  destruct H as [H | [H | [H | [H | [H | [H | H]]]]]].

(** X24: the day name of every order is one of the seven of [days_order],
    so re-indexing the heatmap on them drops no order; it repeats every
    seven days; an order is of type "Weekend" on a Saturday or Sunday and
    of type "Weekday" on the other five days; and of any seven consecutive
    days exactly two, a Saturday and a Sunday, count as weekend. *)
Theorem weekdays_cycle :
  (forall r : Transaction, In (DayOfWeek r) days_order) /\
  (forall t : Z, day_name (t + 7 * 86400) = day_name t) /\
  (forall r : Transaction,
      Day_Type r = "Weekend" /\
        (DayOfWeek r = "Saturday" \/ DayOfWeek r = "Sunday") \/
      Day_Type r = "Weekday" /\
        In (DayOfWeek r)
          [ "Monday"; "Tuesday"; "Wednesday"; "Thursday"; "Friday" ]) /\
  (forall d : Z,
      let week := map (fun i => day_name (86400 * (d + i)))
                    [ 0; 1; 2; 3; 4; 5; 6 ]%Z in
      filter weekend_day week = [ "Saturday"; "Sunday" ] \/
      filter weekend_day week = [ "Sunday"; "Saturday" ]).
Proof.
  split; [ | split; [ | split ] ].
  - intro r. unfold DayOfWeek, day_name.
    pose proof (day_name_index (Order_Date r)) as Hm.
    set (m := ((dt_date (Order_Date r) + 3) mod 7)%Z) in *. clearbody m.
    seven_cases m H; subst m; cbn; tauto.
  - intro t. unfold day_name, dt_date.
    rewrite Z.div_add by lia.
    replace (t / 86400 + 7 + 3)%Z with (t / 86400 + 3 + 1 * 7)%Z by lia.
    now rewrite Z.mod_add by lia.
  - intro r. unfold Day_Type, Is_Weekend, DayOfWeek, day_name.
    pose proof (day_name_index (Order_Date r)) as Hm.
    set (m := ((dt_date (Order_Date r) + 3) mod 7)%Z) in *. clearbody m.
    seven_cases m H; subst m; cbn; tauto.
  - intro d. cbn zeta.
    pose proof (day_name_index (86400 * d)) as Hm.
    assert (Hday : forall i : Z,
               day_name (86400 * (d + i))
               = nth (Z.to_nat (((dt_date (86400 * d) + 3) mod 7 + i) mod 7))
                   days_order "").
    { intro i. unfold day_name, dt_date. rewrite !(Z.mul_comm 86400).
      rewrite !Z.div_mul by lia. rewrite Zplus_mod_idemp_l.
      do 3 f_equal. lia. }
    cbn [map]. rewrite !Hday.
    set (m := ((dt_date (86400 * d) + 3) mod 7)%Z) in *. clearbody m.
    seven_cases m H; subst m; cbn; tauto.
Qed.

(** ** Discount impact *)

Lemma Discount_Range_label (d : Q) (label : string) :
  Discount_Range d = Some label ->
  In label discount_labels /\ (- (1 # 100) < d <= 1)%Q.
Proof.
  unfold Discount_Range, pd_cut, discount_bins, discount_labels.
  unfold searchsorted_left.
  destruct (Qlt_bool (- (1 # 100)) d) eqn:E0;
    [ destruct (Qlt_bool (10 # 100) d) eqn:E1;
      [ destruct (Qlt_bool (20 # 100) d) eqn:E2;
        [ destruct (Qlt_bool (30 # 100) d) eqn:E3;
          [ destruct (Qlt_bool (50 # 100) d) eqn:E4;
            [ destruct (Qlt_bool 1 d) eqn:E5 | ] | ] | ] | ] | ];
    cbn; qprop; intro H; try discriminate H;
    injection H as <-; (split; [ cbn; tauto | lra ]).
Qed.

Lemma disc_impact_In (df : DataFrame) (e : string * num) :
  In e (disc_impact df) <->
  In (fst e) discount_labels /\ discount_group (fst e) df <> [] /\
  snd e = pd_mean (map Profit_INR (discount_group (fst e) df)).
Proof.
  unfold disc_impact. rewrite in_flat_map. split.
  - intros [label [Hl He]].
    destruct (discount_group label df) as [ | r g ] eqn:Eg; [ contradiction | ].
    destruct He as [<- | []]. cbn [fst snd]. rewrite Eg.
    repeat split; [ assumption | discriminate ].
  - intros [Hl [Hne Hm]]. exists (fst e). split; [ assumption | ].
    destruct (discount_group (fst e) df) as [ | r g ]; [ congruence | ].
    left. destruct e as [l m]. cbn in *. now subst.
Qed.

(** X25: the discount chart has a bar for a bucket exactly when some record
    falls into it, at most five bars, each a finite average; records whose
    discount lies outside (-0.01, 1.0] belong to no bucket and change
    nothing in the chart. *)
Theorem disc_impact_buckets (df : DataFrame) :
  (forall label : string,
      In label (map fst (disc_impact df)) <->
      exists r : Transaction,
        In r df /\ Discount_Range (Discount r) = Some label) /\
  Forall (fun e => Num.is_finite (snd e) = true) (disc_impact df) /\
  (List.length (disc_impact df) <= 5)%nat /\
  disc_impact
    (filter (fun r => Qlt_bool (- (1 # 100)) (Discount r)
                      && Qle_bool (Discount r) 1) df)
  = disc_impact df.
Proof.
  split; [ | split; [ | split ] ].
  - intro label. rewrite in_map_iff. split.
    + intros [e [<- He]]. apply disc_impact_In in He.
      destruct He as [_ [Hne _]].
      destruct (discount_group (fst e) df) as [ | r g ] eqn:Eg;
        [ congruence | ].
      assert (Hr : In r (discount_group (fst e) df)) by (rewrite Eg; now left).
      unfold discount_group in Hr. apply filter_In in Hr.
      destruct Hr as [Hr Hb]. exists r. split; [ assumption | ].
      destruct (Discount_Range (Discount r)) as [l | ]; [ | discriminate Hb ].
      apply String.eqb_eq in Hb. now subst.
    + intros [r [Hr Hb]].
      exists (label, pd_mean (map Profit_INR (discount_group label df))).
      split; [ reflexivity | ]. apply disc_impact_In. cbn [fst snd].
      split; [ apply (Discount_Range_label _ _ Hb) | ].
      split; [ | reflexivity ].
      intro Hnil.
      assert (Hin : In r (discount_group label df)).
      { unfold discount_group. apply filter_In. split; [ assumption | ].
        rewrite Hb. apply String.eqb_refl. }
      rewrite Hnil in Hin. contradiction.
  - apply Forall_forall. intros e He. apply disc_impact_In in He.
    destruct He as [_ [Hne ->]]. unfold pd_mean. rewrite length_map.
    destruct (discount_group (fst e) df) as [ | r g ]; [ congruence | ].
    pose proof (of_count_pos (List.length (r :: g)) ltac:(simpl; lia)).
    rewrite div_finite by lra. reflexivity.
  - unfold disc_impact, discount_labels. cbn [flat_map].
    rewrite !length_app. cbn [List.length].
    repeat match goal with
      | |- context [ match ?g with [] => [] | _ :: _ => _ end ] =>
          destruct g; cbn [List.length]
      end; lia.
  - assert (E : forall label,
               discount_group label
                 (filter (fun r => Qlt_bool (- (1 # 100)) (Discount r)
                                   && Qle_bool (Discount r) 1) df)
               = discount_group label df).
    { intro label. unfold discount_group.
      induction df as [ | r df IH ]; [ reflexivity | ].
      cbn [filter].
      destruct (Discount_Range (Discount r)) as [l | ] eqn:Eb.
      - destruct (Discount_Range_label _ _ Eb) as [_ [Hlo Hhi]].
        apply Qlt_bool_iff in Hlo. apply Qle_bool_iff in Hhi.
        rewrite Hlo, Hhi. cbn [andb filter]. rewrite Eb.
        destruct (String.eqb l label); now rewrite IH.
      - destruct (_ && _); [ cbn [filter]; rewrite Eb | ]; exact IH. }
    unfold disc_impact. apply flat_map_ext. intro label. now rewrite E.
Qed.

(** ** The ten largest *)

Lemma sort_by_snd_StronglySorted (s : list (string * Q)) :
  StronglySorted (fun a b => (snd b <= snd a)%Q)
    (sort_by (fun a b => Qle_bool (snd b) (snd a)) s).
Proof.
  apply Sorted_StronglySorted.
  - intros a b c Hab Hbc. lra.
  - set (le := fun a b : string * Q => Qle_bool (snd b) (snd a)).
    assert (Hs : Sorted (fun a b => le a b = true) (sort_by le s)).
    { apply sort_by_Sorted. intros x y H. unfold le in *. qprop.
      apply Qle_bool_iff. lra. }
    induction Hs as [ | x l Hs IH Hhd ]; constructor; [ assumption | ].
    destruct Hhd as [ | y l Hxy ]; constructor.
    unfold le in Hxy. now qprop.
Qed.

Lemma StronglySorted_firstn {A : Type} (R : A -> A -> Prop) (n : nat)
  (l : list A) :
  StronglySorted R l -> StronglySorted R (firstn n l).
Proof.
  intro H. revert n. induction H as [ | x l Hs IH Hall ]; intro n.
  - rewrite firstn_nil. constructor.
  - destruct n as [ | n ]; [ constructor | ].
    cbn [firstn]. constructor; [ apply IH | ].
    rewrite Forall_forall in *. intros y Hy. apply Hall.
    rewrite <- (firstn_skipn n l). apply in_or_app. now left.
Qed.

(** X26: the "Top 10 Cities" waterfall shows at most ten cities, each with
    the profit summed over its orders, the most profitable first; every
    city it leaves out has a profit sum at most that of every city shown. *)
Theorem city_prof_top_ten (df : DataFrame) :
  let sums := groupby_sum City Profit_INR df in
  (List.length (city_prof df) <= 10)%nat /\
  StronglySorted (fun a b => (snd b <= snd a)%Q) (city_prof df) /\
  Forall (fun e =>
            In (fst e) (map City df) /\
            snd e = pd_sum (map Profit_INR (group_rows City (fst e) df)))
    (city_prof df) /\
  Forall (fun e =>
            In e (city_prof df) \/
            Forall (fun shown => (snd e <= snd shown)%Q) (city_prof df))
    sums.
Proof.
  cbn zeta. unfold city_prof, nlargest.
  set (sums := groupby_sum City Profit_INR df).
  set (sorted_sums := sort_by (fun a b => Qle_bool (snd b) (snd a)) sums).
  pose proof (sort_by_snd_StronglySorted sums) as Hs. fold sorted_sums in Hs.
  split; [ rewrite length_firstn; lia | ].
  split; [ now apply StronglySorted_firstn | ].
  split.
  - apply Forall_forall. intros e He. apply In_firstn in He.
    unfold sorted_sums in He. apply sort_by_In in He.
    unfold sums, groupby_sum in He. apply in_map_iff in He.
    destruct He as [k [<- Hk]]. cbn [fst snd]. split; [ | reflexivity ].
    apply group_keys_In in Hk. destruct Hk as [r [Hr <-]]. now apply in_map.
  - apply Forall_forall. intros e He.
    assert (Hin : In e sorted_sums) by now apply sort_by_In.
    rewrite <- (firstn_skipn 10 sorted_sums) in Hin, Hs.
    apply in_app_or in Hin. destruct Hin as [Hin | Hin]; [ now left | right ].
    apply StronglySorted_app_inv in Hs. rewrite Forall_forall in *.
    intros shown Hshown. specialize (Hs shown Hshown).
    rewrite Forall_forall in Hs. now apply Hs.
Qed.

(** ** The daily series *)

Lemma date_range_In (lo hi t : Z) :
  In t (date_range lo hi) -> ((t - lo) mod 86400 = 0)%Z.
Proof.
  unfold date_range. intro H. apply in_map_iff in H.
  destruct H as [k [<- _]].
  replace (lo + 86400 * Z.of_nat k - lo)%Z with (Z.of_nat k * 86400)%Z by lia.
  apply Z.mod_mul. lia.
Qed.

(** X27: for a non-empty view the daily series has one entry per whole day
    between the first and the last order timestamp, so the decomposition is
    attempted exactly when statsmodels is available and these are at least
    30 days apart; an order placed at a time that is not a whole number of
    days after the first order has no entry in the series. *)
Theorem daily_ts_span (r : Transaction) (df : DataFrame) :
  exists lo hi : Z,
    series_min (map Order_Date (r :: df)) = Some lo /\
    series_max (map Order_Date (r :: df)) = Some hi /\
    (lo <= hi)%Z /\
    List.length (daily_ts (r :: df)) = (Z.to_nat ((hi - lo) / 86400) + 1)%nat /\
    (forall available : bool,
        decomposition_shown available (r :: df) = true <->
        available = true /\ (30 * 86400 <= hi - lo)%Z) /\
    (forall x : Transaction,
        ((Order_Date x - lo) mod 86400 <> 0)%Z ->
        ~ In (Order_Date x) (map fst (daily_ts (r :: df)))).
Proof.
  set (lo := fold_left Z.min (map Order_Date df) (Order_Date r)).
  set (hi := fold_left Z.max (map Order_Date df) (Order_Date r)).
  exists lo, hi.
  assert (Hlo : (lo <= Order_Date r)%Z).
  { apply fold_min_le. now left. }
  assert (Hhi : (Order_Date r <= hi)%Z).
  { apply fold_max_ge. now left. }
  assert (Hlen : List.length (daily_ts (r :: df))
                 = (Z.to_nat ((hi - lo) / 86400) + 1)%nat).
  { unfold daily_ts. cbn [map series_min series_max]. fold lo hi.
    unfold date_range. now rewrite !length_map, length_seq. }
  split; [ reflexivity | split; [ reflexivity | split; [ lia | ] ] ].
  split; [ exact Hlen | split ].
  - intro available. unfold decomposition_shown. rewrite Hlen.
    rewrite andb_true_iff, Nat.ltb_lt.
    assert (Hq : (0 <= (hi - lo) / 86400)%Z) by (apply Z.div_pos; lia).
    assert (Hdiv : (30 <= (hi - lo) / 86400 <-> 30 * 86400 <= hi - lo)%Z).
    { split; intro H.
      - pose proof (Z.mul_div_le (hi - lo) 86400 ltac:(lia)). lia.
      - apply Z.div_le_lower_bound; lia. }
    split.
    + intros [H1 H2]. split; [ assumption | lia ].
    + intros [H1 H2]. split; [ lia | assumption ].
  - intros x Hx Hin. apply Hx.
    unfold daily_ts in Hin. cbn [map series_min series_max] in Hin.
    fold lo hi in Hin. rewrite map_map in Hin. cbn [fst] in Hin.
    rewrite map_id in Hin. now apply date_range_In in Hin.
Qed.
